(** * Data plot visualizer microservice: request validation, plot index, routes

    A shallow embedding of [app.py]: the request validator
    [_validate_plot_request], the plot generator [_generate_plot_file], the
    process-wide index [PLOTS] and the three routes [health], [create_plot]
    and [download_plot], followed by the properties the specification states
    about them. *)

From Stdlib Require Import ZArith Ascii String List Bool Lia.
From Stdlib Require Import Floats.SpecFloat.
From stdpp Require Import base option list gmap strings fin_maps.

Set Warnings "-register-all".

Local Open Scope Z_scope.
Local Open Scope string_scope.

(** ** Python values and exceptions *)

(** A decoded JSON document as Python holds it: [None], [bool], [int]
    (unbounded), [float] (an IEEE binary64), [str], [list] and [dict] with
    string keys kept in insertion order.  [PTuple] is the other type the
    validator admits for [y] and [x]. *)
Inductive pyval : Type :=
| PNone
| PBool (b : bool)
| PInt (n : Z)
| PFloat (f : spec_float)
| PStr (s : string)
| PList (items : list pyval)
| PTuple (items : list pyval)
| PDict (entries : list (string * pyval)).

(** The exception classes the service meets: those [float] raises, the
    one the JSON decoder raises on nesting too deep for it, the one opening
    a missing file raises. *)
Inductive exn : Type :=
| TypeError
| ValueError
| OverflowError
| RecursionError
| FileNotFoundError.

(** A computation that returns or raises. *)
Inductive result (A : Type) : Type :=
| Return (a : A)
| Raise (e : exn).
Arguments Return {A} a.
Arguments Raise {A} e.

#[global] Instance result_ret : MRet result := fun A a => Return a.

#[global] Instance result_bind : MBind result := fun A B k c =>
  match c with
  | Return a => k a
  | Raise e => Raise e
  end.

(** Whether [except (TypeError, ValueError)] handles the exception. *)
Definition caught (e : exn) : bool :=
  match e with
  | TypeError | ValueError => true
  | OverflowError | RecursionError | FileNotFoundError => false
  end.

(** ** Builtins used by the validator *)

(** [isinstance(v, dict)] *)
Definition is_dict (v : pyval) : bool :=
  match v with PDict _ => true | _ => false end.

(** [isinstance(v, (list, tuple))], with the items when it holds. *)
Definition as_array (v : pyval) : option (list pyval) :=
  match v with
  | PList items => Some items
  | PTuple items => Some items
  | _ => None
  end.

(** [d.get(key)] on the entries of a dict: the value, or nothing. *)
Fixpoint assoc (key : string) (entries : list (string * pyval)) : option pyval :=
  match entries with
  | [] => None
  | (k, v) :: rest => if String.eqb k key then Some v else assoc key rest
  end.

(** [d.get(key, default)] *)
Definition dict_get_default (entries : list (string * pyval)) (key : string)
    (default : pyval) : pyval :=
  match assoc key entries with Some v => v | None => default end.

(** [d.get(key)], which is [d.get(key, None)] *)
Definition dict_get (entries : list (string * pyval)) (key : string) : pyval :=
  dict_get_default entries key PNone.

(** [v is None] *)
Definition is_none (v : pyval) : bool :=
  match v with PNone => true | _ => false end.

(** binary64 *)
Definition prec : Z := 53.
Definition emax : Z := 1024.

(** [float(n)] for an [int]: rounded to nearest, ties to even;
    [OverflowError] when the rounded magnitude leaves the binary64 range. *)
Definition float_of_int (n : Z) : result spec_float :=
  match binary_normalize prec emax n 0 false with
  | S754_infinity _ => Raise OverflowError
  | f => Return f
  end.

(** [range(n)] as a list of ints *)
Definition py_range (n : nat) : list Z := map Z.of_nat (seq 0 n).

(** An element of [x_values]: an [int] when synthesized from [range], a
    [float] when converted from the payload. *)
Inductive number : Type :=
| NInt (n : Z)
| NFloat (f : spec_float).

Record Meta : Type := mkMeta {
  title : string;
  x_label : string;
  y_label : string
}.

(** What the validator returns: [(x_values, y_values, meta)] or
    [(None, None, error_message)]. *)
Inductive validated : Type :=
| Accepted (x_values : list number) (y_values : list spec_float) (meta : Meta)
| Rejected (message : string).

(** ** What the service takes from its runtime and configuration *)

Class Runtime : Type := {
  (** [float(s)] on a [str]: the parsed value, or nothing when it raises
      [ValueError] *)
  float_of_str : string -> option spec_float;
  (** [str(v)] *)
  py_str : pyval -> string;
  (** [os.environ.get("PLOT_SERVICE_DIR", "plots")] *)
  PLOTS_DIR : string;
  (** the charting library drawing the line chart: the bytes it then saves,
      or the exception it raises on data it cannot draw *)
  render_png : list number -> list spec_float -> Meta -> result string;
  (** [os.getcwd()]: relative paths given to [os.path.exists] and to
      [savefig] start here *)
  cwd : string;
  (** [app.root_path], the directory of [app.py]: relative paths given to
      [send_file] start here *)
  root_path : string;
  (** the files under [app.root_path] when it is not the working directory
      (full path to content); the service saves under the working directory
      and does not write them *)
  root_files : gmap string string
}.

Section Service.

Context `{Runtime}.

(** ** The request validator *)

(** [float(v)] *)
Definition py_float (v : pyval) : result spec_float :=
  match v with
  | PNone => Raise TypeError
  | PBool b => float_of_int (if b then 1 else 0)
  | PInt n => float_of_int n
  | PFloat f => Return f
  | PStr s =>
      match float_of_str s with
      | Some f => Return f
      | None => Raise ValueError
      end
  | PList _ | PTuple _ | PDict _ => Raise TypeError
  end.

(** [[float(v) for v in items]]: left to right, the first exception ends
    the comprehension. *)
Fixpoint float_each (items : list pyval) : result (list spec_float) :=
  match items with
  | [] => Return []
  | v :: rest =>
      f ← py_float v;
      fs ← float_each rest;
      mret (f :: fs)
  end.

Definition build_meta (payload : list (string * pyval)) : Meta :=
  {| title := py_str (dict_get_default payload "title" (PStr "Data Plot"));
     x_label := py_str (dict_get_default payload "x_label" (PStr "Index"));
     y_label := py_str (dict_get_default payload "y_label" (PStr "Value")) |}.

(** [_validate_plot_request(payload)] *)
Definition _validate_plot_request (payload : pyval) : result validated :=
  match payload with
  | PDict fields =>
      let data := dict_get fields "data" in
      if is_none data then Return (Rejected "missing 'data' field")
      else
        let '(y, x) :=
          match data with
          | PDict d => (dict_get d "y", dict_get d "x")
          | _ => (data, PNone)
          end in
        match as_array y with
        | None => Return (Rejected "'data' or 'data.y' must be an array of numbers")
        | Some ys =>
            if (length ys <? 2)%nat then
              Return (Rejected "at least two data points are required")
            else if (5000 <? length ys)%nat then
              Return (Rejected "data contains too many points (max 5000)")
            else
              match float_each ys with
              | Raise e =>
                  if caught e then Return (Rejected "all y values must be numeric")
                  else Raise e
              | Return y_values =>
                  if is_none x then
                    Return (Accepted (map NInt (py_range (length y_values))) y_values
                              (build_meta fields))
                  else
                    match as_array x with
                    | None => Return (Rejected "'data.x' must be an array of numbers")
                    | Some xs =>
                        if negb (length xs =? length y_values)%nat then
                          Return (Rejected "x and y must have the same length")
                        else
                          match float_each xs with
                          | Raise e =>
                              if caught e then
                                Return (Rejected "all x values must be numeric")
                              else Raise e
                          | Return x_values =>
                              Return (Accepted (map NFloat x_values) y_values
                                        (build_meta fields))
                          end
                    end
              end
        end
  | _ => Return (Rejected "request body must be a json object")
  end.

(** ** The plot index, the plots directory and the generator *)

(** A value of [PLOTS]: [{"path": ..., "created_at": ...}] *)
Record PlotInfo : Type := mkPlotInfo {
  path : string;
  created_at : string
}.

(** The process state the routes read and write: the index [PLOTS] and the
    files on disk (path to content), under the paths the process gives to
    [os.path.exists] and to [savefig], which start at its working directory
    when they are relative. *)
Record State : Type := mkState {
  PLOTS : gmap string PlotInfo;
  disk : gmap string string
}.

(** What one call of the generator draws from its environment:
    [str(uuid.uuid4())] and [datetime.utcnow().isoformat()]. *)
Record Draw : Type := mkDraw {
  uuid4 : string;
  utcnow_isoformat : string
}.

(** [s.startswith("/")] *)
Definition starts_with_slash (s : string) : bool :=
  match s with
  | String c _ => Ascii.eqb c "/"%char
  | EmptyString => false
  end.

(** [s.endswith("/")] *)
Fixpoint ends_with_slash (s : string) : bool :=
  match s with
  | EmptyString => false
  | String c EmptyString => Ascii.eqb c "/"%char
  | String _ rest => ends_with_slash rest
  end.

(** [os.path.join(a, b)] (posix) *)
Definition os_path_join (a b : string) : string :=
  if starts_with_slash b then b
  else if String.eqb a "" || ends_with_slash a then a ++ b
  else a ++ "/" ++ b.

(** [os.path.exists(p)]: the empty path names no file. *)
Definition os_path_exists (st : State) (p : string) : bool :=
  if String.eqb p "" then false else bool_decide (is_Some (disk st !! p)).

(** [_generate_plot_file(x_values, y_values, meta)]: returns
    [(plot_id, file_path, created_at)] and the state after the file is saved
    and the index entry is set, or raises what the charting library raises
    while drawing, before anything is saved or indexed. *)
Definition _generate_plot_file (x_values : list number) (y_values : list spec_float)
    (meta : Meta) (d : Draw) (st : State)
    : result ((string * string * string) * State) :=
  let plot_id := uuid4 d in
  let file_name := plot_id ++ ".png" in
  let file_path := os_path_join PLOTS_DIR file_name in
  content ← render_png x_values y_values meta;
  let saved := <[file_path := content]> (disk st) in
  let created := utcnow_isoformat d ++ "Z" in
  let index := <[plot_id := {| path := file_path; created_at := created |}]> (PLOTS st) in
  mret ((plot_id, file_path, created), {| PLOTS := index; disk := saved |}).

(** ** Requests, responses and the routes *)

(** What a view returns: [jsonify(body), status], the response of
    [send_file(...)] to a GET without range or conditional headers (status
    200, the whole file), or an exception that leaves the view (the
    framework answers 500 with its own page). *)
Inductive response : Type :=
| Json (body : list (string * pyval)) (status : Z)
| SendFile (file_path content mimetype download_name : string)
| Unhandled (e : exn).

Definition status_code (r : response) : Z :=
  match r with
  | Json _ status => status
  | SendFile _ _ _ _ => 200
  | Unhandled _ => 500
  end.

(** The error envelope [{"status": "error", "message": message}]. *)
Definition error_body (message : string) : list (string * pyval) :=
  [("status", PStr "error"); ("message", PStr message)].

(** The body of a POST: whether its content type is JSON, and what
    decoding it does: it returns a value, or fails in the way
    [silent=True] swallows (nothing), or raises something else, as the
    decoder's [RecursionError] on nesting too deep. *)
Record Body : Type := mkBody {
  is_json : bool;
  decoded : result (option pyval)
}.

(** [request.get_json(silent=True)] *)
Definition get_json_silent (b : Body) : result pyval :=
  match decoded b with
  | Return (Some v) => Return v
  | Return None => Return PNone
  | Raise e => Raise e
  end.

(** [GET /health] *)
Definition health (st : State) : response * State :=
  (Json [("status", PStr "ok");
         ("service", PStr "data-plot-visualizer");
         ("stored_plots", PInt (Z.of_nat (size (PLOTS st))))] 200,
   st).

(** The first two steps of [create_plot]: the silent decoding, then the
    validator on what it returned. *)
Definition validated_body (b : Body) : result validated :=
  payload ← get_json_silent b;
  _validate_plot_request payload.

(** [POST /plots] *)
Definition create_plot (b : Body) (d : Draw) (st : State) : response * State :=
  if negb (is_json b) then (Json (error_body "expected json body") 400, st)
  else
    match get_json_silent b with
    | Raise e => (Unhandled e, st)
    | Return payload =>
        match _validate_plot_request payload with
        | Raise e => (Unhandled e, st)
        | Return (Rejected meta_or_error) => (Json (error_body meta_or_error) 400, st)
        | Return (Accepted x_values y_values meta_or_error) =>
            match _generate_plot_file x_values y_values meta_or_error d st with
            | Raise e => (Unhandled e, st)
            | Return ((plot_id, file_path, created), st') =>
                (Json [("status", PStr "ok");
                       ("plot_id", PStr plot_id);
                       ("created_at", PStr created);
                       ("image_path", PStr file_path)] 200,
                 st')
            end
        end
    end.

(** The file [send_file] opens for [file_path]: an absolute path as it is,
    a relative one joined to [app.root_path]. That is the file the
    working directory names only when the two directories are the same. *)
Definition flask_open (st : State) (file_path : string) : option string :=
  if starts_with_slash file_path || String.eqb root_path cwd
  then disk st !! file_path
  else root_files !! os_path_join root_path file_path.

(** [send_file(file_path, mimetype=..., as_attachment=True,
    download_name=...)]: raises [FileNotFoundError] when there is no file
    where it looks. *)
Definition send_file (file_path mimetype download_name : string) (st : State)
    : response :=
  match flask_open st file_path with
  | Some content => SendFile file_path content mimetype download_name
  | None => Unhandled FileNotFoundError
  end.

(** [GET /plots/<plot_id>] *)
Definition download_plot (plot_id : string) (st : State) : response * State :=
  match PLOTS st !! plot_id with
  | None =>
      (Json (error_body ("plot '" ++ plot_id ++ "' not found")) 404, st)
  | Some info =>
      let file_path := path info in
      if String.eqb file_path "" || negb (os_path_exists st file_path) then
        (Json (error_body "plot file is missing or unavailable") 500, st)
      else
        (send_file file_path "image/png" ("plot-" ++ plot_id ++ ".png") st, st)
  end.





(** One request as the URL map dispatched it to a view; the [plot_id] of
    [GET_plot] is the segment its rule matched, and the GET carries no
    range or conditional header. *)
Inductive request : Type :=
| GET_health
| POST_plots (b : Body) (d : Draw)
| GET_plot (plot_id : string).

Definition handle (r : request) (st : State) : response * State :=
  match r with
  | GET_health => health st
  | POST_plots b d => create_plot b d st
  | GET_plot plot_id => download_plot plot_id st
  end.

(** The service handling requests one after the other: every request with
    its response, and the state at the end. *)
Fixpoint serve (reqs : list request) (st : State) : list (request * response) * State :=
  match reqs with
  | [] => ([], st)
  | r :: rest =>
      let '(resp, st1) := handle r st in
      let '(log, st2) := serve rest st1 in
      ((r, resp) :: log, st2)
  end.

(** The state at process start: an empty index; the plots directory holds
    whatever it held. *)
Definition start (files : gmap string string) : State :=
  {| PLOTS := ∅; disk := files |}.

(** ** The validation rules as the specification lists them *)

(** The [data] field of the payload, [None] when there is none. *)
Definition payload_data (payload : pyval) : pyval :=
  match payload with
  | PDict fields => dict_get fields "data"
  | _ => PNone
  end.

(** The resolved [y]: [data.y] of a mapping, else [data] itself. *)
Definition resolved_y (payload : pyval) : pyval :=
  match payload_data payload with
  | PDict d => dict_get d "y"
  | data => data
  end.

(** The resolved [x]: [data.x] of a mapping, else absent. *)
Definition resolved_x (payload : pyval) : pyval :=
  match payload_data payload with
  | PDict d => dict_get d "x"
  | _ => PNone
  end.

Definition x_present (payload : pyval) : bool := negb (is_none (resolved_x payload)).

Definition array_items (v : pyval) : list pyval :=
  match as_array v with Some items => items | None => [] end.

Definition is_array (v : pyval) : bool :=
  match as_array v with Some _ => true | None => false end.

(** An element is convertible when [float] of it returns. *)
Definition convertible (v : pyval) : bool :=
  match py_float v with Return _ => true | Raise _ => false end.

(** [float] of the element raises [OverflowError]. *)
Definition overflows (v : pyval) : bool :=
  match py_float v with Raise OverflowError => true | _ => false end.

(** Each rule as the condition under which it fails, with its message, in
    the order of the specification (rules 1, 2, 4, 5, 5, 6, 8, 8, 8). *)
Definition rules : list ((pyval -> bool) * string) :=
  [ (fun p => negb (is_dict p),
     "request body must be a json object");
    (fun p => is_none (payload_data p),
     "missing 'data' field");
    (fun p => negb (is_array (resolved_y p)),
     "'data' or 'data.y' must be an array of numbers");
    (fun p => (length (array_items (resolved_y p)) <? 2)%nat,
     "at least two data points are required");
    (fun p => (5000 <? length (array_items (resolved_y p)))%nat,
     "data contains too many points (max 5000)");
    (fun p => negb (forallb convertible (array_items (resolved_y p))),
     "all y values must be numeric");
    (fun p => x_present p && negb (is_array (resolved_x p)),
     "'data.x' must be an array of numbers");
    (fun p => x_present p &&
              negb (length (array_items (resolved_x p))
                    =? length (array_items (resolved_y p)))%nat,
     "x and y must have the same length");
    (fun p => x_present p && negb (forallb convertible (array_items (resolved_x p))),
     "all x values must be numeric") ].

(** The message of the first rule that fails, if one does. *)
Definition first_failure (payload : pyval) : option string :=
  snd <$> List.find (fun rule => fst rule payload) rules.

(** No element of the resolved [y] or [x] is an [int] beyond the float
    range. *)
Definition no_overflow (payload : pyval) : bool :=
  forallb (fun v => negb (overflows v))
    (array_items (resolved_y payload) ++ array_items (resolved_x payload)).

(** The payload has no [x] field: [data] is a flat array, or a mapping
    without the key ["x"]. *)
Definition no_x_field (payload : pyval) : bool :=
  match payload_data payload with
  | PDict d => match assoc "x" d with None => true | Some _ => false end
  | data => is_array data
  end.

(** The path the generator saves the plot [plot_id] under. *)
Definition png_path (plot_id : string) : string :=
  os_path_join PLOTS_DIR (plot_id ++ ".png").

(** Every index entry records the generator's path for its identifier, and
    a file is there. *)
Definition index_backed (st : State) : Prop :=
  forall plot_id info,
    PLOTS st !! plot_id = Some info ->
    path info = png_path plot_id /\ os_path_exists st (path info) = true.

(** ** Reading a log of served requests *)

(** A POST that was answered 200. *)
Definition successful_post (entry : request * response) : bool :=
  match entry with
  | (POST_plots _ _, resp) => (status_code resp =? 200)%Z
  | _ => false
  end.

(** The identifier a successful POST generated. *)
Definition generated_id (entry : request * response) : option string :=
  match entry with
  | (POST_plots _ d, resp) => if (status_code resp =? 200)%Z then Some (uuid4 d) else None
  | _ => None
  end.

Definition generated_ids (log : list (request * response)) : list string :=
  omap generated_id log.

End Service.

(** A runtime to evaluate requests with: it parses no string as a float,
    renders [str] of the scalars and saves a fixed image under ["plots"];
    the service runs in the directory of [app.py]. *)
Definition bare_runtime : Runtime :=
  {| float_of_str := fun _ => None;
     py_str := fun v =>
       match v with
       | PStr s => s
       | PNone => "None"
       | PBool true => "True"
       | PBool false => "False"
       | _ => ""
       end;
     PLOTS_DIR := "plots";
     render_png := fun _ _ _ => Return "PNG";
     cwd := "/srv/app";
     root_path := "/srv/app";
     root_files := ∅ |}.

(** The same service started from the parent directory: [app.root_path] is
    not the working directory, and holds no plots. *)
Definition detached_runtime : Runtime :=
  {| float_of_str := float_of_str (Runtime := bare_runtime);
     py_str := py_str (Runtime := bare_runtime);
     PLOTS_DIR := "plots";
     render_png := fun _ _ _ => Return "PNG";
     cwd := "/srv";
     root_path := "/srv/app";
     root_files := ∅ |}.

(** Requests to evaluate the service on. *)
Definition flat_payload : pyval :=
  PDict [("data", PList [PInt 1; PInt 2; PInt 3; PInt 4; PInt 5]);
         ("title", PStr "Sample Plot")].

Definition xy_payload : pyval :=
  PDict [("data", PDict [("x", PList [PInt 0; PInt 1; PInt 2; PInt 3]);
                         ("y", PList [PInt 1; PInt 2; PInt 3; PBool true])])].

Definition mismatched_payload : pyval :=
  PDict [("data", PDict [("x", PList [PInt 0; PInt 1; PInt 2]);
                         ("y", PList [PInt 0; PInt 1])])].

Definition json_body (v : pyval) : Body :=
  {| is_json := true; decoded := Return (Some v) |}.

Definition malformed_body : Body := {| is_json := true; decoded := Return None |}.

(** A JSON-typed body of 5000 opening brackets: the decoder raises
    [RecursionError]. *)
Definition deeply_nested_body : Body :=
  {| is_json := true; decoded := Raise RecursionError |}.

Definition first_draw : Draw :=
  {| uuid4 := "6f1c2a9e-0b7d-4c55-9a3e-2d1f0e8b7c41";
     utcnow_isoformat := "2024-05-01T10:00:00.000001" |}.

Definition second_draw : Draw :=
  {| uuid4 := "b2d4e6f8-1a3c-4e5f-8b7d-9c0a1e2f3b4d";
     utcnow_isoformat := "2024-05-01T10:00:02.500000" |}.

Definition sample_requests : list request :=
  [ POST_plots (json_body flat_payload) first_draw;
    GET_health;
    POST_plots (json_body mismatched_payload) second_draw;
    POST_plots malformed_body second_draw;
    POST_plots (json_body xy_payload) second_draw;
    GET_plot (uuid4 first_draw) ].

(** * Properties *)

Section ValidatorProperties.

Context `{Runtime}.

(** ** Conversion of the arrays *)

Lemma float_each_cons v rest :
  float_each (v :: rest) =
  match py_float v with
  | Raise e => Raise e
  | Return f =>
      match float_each rest with
      | Raise e => Raise e
      | Return fs => Return (f :: fs)
      end
  end.
Proof.
  cbn [float_each]. unfold mbind, result_bind, mret, result_ret.
  destruct (py_float v); [destruct (float_each rest)|]; reflexivity.
Qed.

Lemma float_each_length items fs :
  float_each items = Return fs -> length fs = length items.
Proof.
  revert fs. induction items as [|v rest IH]; intros fs.
  - cbn. intros [= <-]. reflexivity.
  - rewrite float_each_cons.
    destruct (py_float v) as [f|e]; [|discriminate].
    destruct (float_each rest) as [fs'|e]; [|discriminate].
    intros [= <-]. cbn. f_equal. apply IH. reflexivity.
Qed.

(** The comprehension returns exactly when every element converts. *)
Lemma float_each_returns_iff items :
  (exists fs, float_each items = Return fs) <-> forallb convertible items = true.
Proof.
  induction items as [|v rest IH].
  - cbn. split; eauto.
  - rewrite float_each_cons. cbn [forallb]. unfold convertible at 1.
    destruct (py_float v) as [f|e].
    + cbn. rewrite <- IH. destruct (float_each rest) as [fs'|e'].
      * split; eauto.
      * split; intros [fs Hfs]; discriminate.
    + cbn. split; [intros [fs Hfs]|]; discriminate.
Qed.

(** [float] raises one of three exceptions. *)
Lemma py_float_raises v e :
  py_float v = Raise e -> e = TypeError \/ e = ValueError \/ e = OverflowError.
Proof.
  assert (Hint : forall n, float_of_int n = Raise e -> e = OverflowError).
  { intros n. unfold float_of_int.
    destruct (binary_normalize prec emax n 0 false); intros [=]; auto. }
  destruct v as [|b|n|f|s|items|items|entries]; cbn [py_float];
    try (intros [= <-]; auto); try discriminate.
  - intros Hb%Hint. auto.
  - intros Hn%Hint. auto.
  - destruct (float_of_str s); intros [= <-]; auto.
Qed.

(** Without an overflowing element, the comprehension raises only what the
    handler catches. *)
Lemma float_each_caught items e :
  forallb (fun v => negb (overflows v)) items = true ->
  float_each items = Raise e -> caught e = true.
Proof.
  induction items as [|v rest IH]; [discriminate|].
  rewrite float_each_cons. cbn [forallb]. unfold overflows at 1.
  intros [Hv Hrest]%andb_prop.
  destruct (py_float v) as [f|e'] eqn:Hv'.
  - destruct (float_each rest) as [fs|e'']; [discriminate|].
    intros [= ->]. apply IH; [assumption|reflexivity].
  - intros [= ->].
    destruct (py_float_raises _ _ Hv') as [-> | [-> | ->]]; try reflexivity.
    discriminate.
Qed.

(** The values of a returning comprehension, element by element. *)
Lemma float_each_lookup items fs i v :
  float_each items = Return fs -> items !! i = Some v ->
  exists f, fs !! i = Some f /\ py_float v = Return f.
Proof.
  revert fs i. induction items as [|w rest IH]; intros fs i; [intros _ [=]|].
  rewrite float_each_cons.
  destruct (py_float w) as [f|e] eqn:Hw; [|discriminate].
  destruct (float_each rest) as [fs'|e]; [|discriminate].
  intros [= <-]. destruct i as [|i]; cbn.
  - intros [= <-]. eauto.
  - intros Hi. apply (IH fs' i); [reflexivity|assumption].
Qed.

Lemma py_range_length n : length (py_range n) = n.
Proof. unfold py_range. rewrite length_map, length_seq. reflexivity. Qed.

Lemma py_range_lookup n i : (i < n)%nat -> py_range n !! i = Some (Z.of_nat i).
Proof.
  intros Hi. unfold py_range. rewrite list_lookup_fmap.
  rewrite lookup_seq_lt by assumption. reflexivity.
Qed.

(** ** The validator, case by case *)

(** The validator in terms of the resolved [y] and [x]. *)
Lemma validate_resolved fields :
  _validate_plot_request (PDict fields) =
  let payload := PDict fields in
  if is_none (payload_data payload) then Return (Rejected "missing 'data' field")
  else
    match as_array (resolved_y payload) with
    | None => Return (Rejected "'data' or 'data.y' must be an array of numbers")
    | Some ys =>
        if (length ys <? 2)%nat then
          Return (Rejected "at least two data points are required")
        else if (5000 <? length ys)%nat then
          Return (Rejected "data contains too many points (max 5000)")
        else
          match float_each ys with
          | Raise e =>
              if caught e then Return (Rejected "all y values must be numeric")
              else Raise e
          | Return y_values =>
              if is_none (resolved_x payload) then
                Return (Accepted (map NInt (py_range (length y_values))) y_values
                          (build_meta fields))
              else
                match as_array (resolved_x payload) with
                | None => Return (Rejected "'data.x' must be an array of numbers")
                | Some xs =>
                    if negb (length xs =? length y_values)%nat then
                      Return (Rejected "x and y must have the same length")
                    else
                      match float_each xs with
                      | Raise e =>
                          if caught e then
                            Return (Rejected "all x values must be numeric")
                          else Raise e
                      | Return x_values =>
                          Return (Accepted (map NFloat x_values) y_values
                                    (build_meta fields))
                      end
                end
          end
    end.
Proof.
  unfold _validate_plot_request, resolved_y, resolved_x, payload_data.
  cbv zeta. destruct (dict_get fields "data"); reflexivity.
Qed.

(** What an accepting run of the validator went through. *)
Lemma validate_accepted_inv payload xs ys meta :
  _validate_plot_request payload = Return (Accepted xs ys meta) ->
  exists fields items,
    payload = PDict fields /\
    is_none (payload_data payload) = false /\
    as_array (resolved_y payload) = Some items /\
    (2 <= length items <= 5000)%nat /\
    float_each items = Return ys /\
    meta = build_meta fields /\
    ((is_none (resolved_x payload) = true /\
      xs = map NInt (py_range (length ys))) \/
     (is_none (resolved_x payload) = false /\
      exists xitems fx,
        as_array (resolved_x payload) = Some xitems /\
        length xitems = length ys /\
        float_each xitems = Return fx /\
        xs = map NFloat fx)).
Proof.
  destruct payload as [| | | | | | |fields]; try discriminate.
  rewrite validate_resolved. cbv zeta.
  destruct (is_none (payload_data (PDict fields))) eqn:Hdata; [discriminate|].
  destruct (as_array (resolved_y (PDict fields))) as [items|] eqn:Hy; [|discriminate].
  destruct (length items <? 2)%nat eqn:Hlo; [discriminate|].
  destruct (5000 <? length items)%nat eqn:Hhi; [discriminate|].
  apply Nat.ltb_ge in Hlo, Hhi.
  destruct (float_each items) as [y_values|e] eqn:Hys;
    [|destruct (caught e); discriminate].
  destruct (is_none (resolved_x (PDict fields))) eqn:Hx.
  - intros [= <- <- <-]. exists fields, items. repeat split; auto; lia.
  - destruct (as_array (resolved_x (PDict fields))) as [xitems|] eqn:Hxa; [|discriminate].
    destruct (length xitems =? length y_values)%nat eqn:Hlen; [|discriminate].
    apply Nat.eqb_eq in Hlen. cbn [negb].
    destruct (float_each xitems) as [x_values|e] eqn:Hxs;
      [|destruct (caught e); discriminate].
    intros [= <- <- <-]. exists fields, items.
    repeat split; auto; try lia. right. split; [reflexivity|].
    exists xitems, x_values. auto.
Qed.

(** ** Order of the rules *)

(** On a payload none of whose array elements overflows, the validator
    answers with the message of the first failing rule, in the order of
    [rules], and accepts when no rule fails. *)
Lemma rules_in_order payload :
  no_overflow payload = true ->
  match first_failure payload with
  | Some message => _validate_plot_request payload = Return (Rejected message)
  | None => exists xs ys meta,
      _validate_plot_request payload = Return (Accepted xs ys meta)
  end.
Proof.
  intros Hno.
  destruct payload as [| | | | | | |fields]; try reflexivity.
  rewrite validate_resolved. cbv zeta.
  unfold first_failure, rules, no_overflow, x_present, is_array, array_items in *.
  cbn [List.find fst snd is_dict negb].
  set (p := PDict fields) in *.
  destruct (is_none (payload_data p)); [reflexivity|].
  destruct (as_array (resolved_y p)) as [ys|]; [|reflexivity].
  cbn [negb] in *.
  destruct (length ys <? 2)%nat; [reflexivity|].
  destruct (5000 <? length ys)%nat; [reflexivity|].
  rewrite forallb_app in Hno. apply andb_prop in Hno as [Hnoy Hnox].
  destruct (float_each ys) as [y_values|e] eqn:Hys.
  - assert (Hconv : forallb convertible ys = true)
      by (apply float_each_returns_iff; eauto).
    rewrite Hconv. cbn [negb].
    apply float_each_length in Hys. rewrite Hys.
    destruct (is_none (resolved_x p)); cbn [negb andb fmap option_fmap option_map].
    + eauto.
    + destruct (as_array (resolved_x p)) as [xs|]; cbn [negb] in *;
        [|reflexivity].
      destruct (length xs =? length ys)%nat; cbn [negb]; [|reflexivity].
      destruct (float_each xs) as [x_values|e] eqn:Hxs.
      * assert (Hconvx : forallb convertible xs = true)
          by (apply float_each_returns_iff; eauto).
        rewrite Hconvx. cbn. eauto.
      * rewrite (float_each_caught _ _ Hnox Hxs).
        destruct (forallb convertible xs) eqn:Hconvx; [|reflexivity].
        apply float_each_returns_iff in Hconvx as [fs Hfs]. congruence.
  - rewrite (float_each_caught _ _ Hnoy Hys).
    destruct (forallb convertible ys) eqn:Hconv; [|reflexivity].
    apply float_each_returns_iff in Hconv as [fs Hfs]. congruence.
Qed.

(** The rules on the shape and the length of [y] come first whatever the
    elements are: a payload they reject is answered with their message. *)
Lemma shape_rules_first payload message :
  first_failure payload = Some message ->
  In message
    [ "request body must be a json object";
      "missing 'data' field";
      "'data' or 'data.y' must be an array of numbers";
      "at least two data points are required";
      "data contains too many points (max 5000)" ] ->
  _validate_plot_request payload = Return (Rejected message).
Proof.
  destruct payload as [| | | | | | |fields];
    try (intros [= <-] _; reflexivity).
  rewrite validate_resolved. cbv zeta.
  unfold first_failure, rules, x_present, is_array, array_items.
  cbn [List.find fst snd is_dict negb].
  set (p := PDict fields).
  destruct (is_none (payload_data p)); [intros [= <-] _; reflexivity|].
  destruct (as_array (resolved_y p)) as [ys|]; [|intros [= <-] _; reflexivity].
  cbn [negb].
  destruct (length ys <? 2)%nat; [intros [= <-] _; reflexivity|].
  destruct (5000 <? length ys)%nat; [intros [= <-] _; reflexivity|].
  intros Hfind Hin. exfalso.
  repeat match type of Hfind with
  | context [if ?c then _ else _] => destruct c
  end; cbn in Hfind; try discriminate; injection Hfind as <-;
    cbn in Hin; intuition discriminate.
Qed.

(** More than 5000 elements are too many points, numeric or not. *)
Lemma too_many_points_first fields ys :
  as_array (resolved_y (PDict fields)) = Some ys ->
  (5000 < length ys)%nat ->
  _validate_plot_request (PDict fields) =
  Return (Rejected "data contains too many points (max 5000)").
Proof.
  intros Hy Hlen. rewrite validate_resolved. cbv zeta.
  assert (Hdata : is_none (payload_data (PDict fields)) = false).
  { unfold resolved_y in Hy. destruct (payload_data (PDict fields)); try reflexivity.
    discriminate. }
  rewrite Hdata, Hy.
  destruct (Nat.ltb_spec (length ys) 2); [lia|].
  destruct (Nat.ltb_spec 5000 (length ys)); [reflexivity|lia].
Qed.

(** Once [y] has passed and [x] is an array as long as [y], the validator
    answers "all x values must be numeric" exactly when the comprehension
    over [x] raises [TypeError] or [ValueError]. *)
Lemma x_error_iff_caught fields ys fs xs :
  as_array (resolved_y (PDict fields)) = Some ys ->
  (2 <= length ys <= 5000)%nat ->
  float_each ys = Return fs ->
  as_array (resolved_x (PDict fields)) = Some xs ->
  length xs = length ys ->
  _validate_plot_request (PDict fields) = Return (Rejected "all x values must be numeric")
  <-> exists e, float_each xs = Raise e /\ caught e = true.
Proof.
  intros Hy Hlen Hfs Hx Hxlen. rewrite validate_resolved. cbv zeta.
  assert (Hdata : is_none (payload_data (PDict fields)) = false).
  { unfold resolved_y in Hy. destruct (payload_data (PDict fields)); try reflexivity.
    discriminate. }
  assert (Hsome : is_none (resolved_x (PDict fields)) = false).
  { destruct (resolved_x (PDict fields)); try reflexivity. discriminate. }
  rewrite Hdata, Hy, Hfs, Hsome, Hx.
  destruct (Nat.ltb_spec (length ys) 2); [lia|].
  destruct (Nat.ltb_spec 5000 (length ys)); [lia|].
  apply float_each_length in Hfs.
  replace (length xs =? length fs)%nat with true
    by (symmetry; apply Nat.eqb_eq; lia).
  cbn [negb].
  destruct (float_each xs) as [fx|e].
  - split; [discriminate|intros (e & [=] & _)].
  - destruct (caught e) eqn:He.
    + split; eauto.
    + split; [discriminate|]. intros (e' & [= <-] & He'). congruence.
Qed.

(** C1. The validator is to answer every payload with the message of the
    first rule that fails.  On the payload
    [{"data": [10**400, "a"]}] the first failing rule is the numeric check
    of [y], and the validator raises [OverflowError] instead of returning
    its message: the handler of the comprehension catches [TypeError] and
    [ValueError] only. *)
Theorem huge_int_breaks_rule_order :
  let payload := PDict [("data", PList [PInt (10 ^ 400); PStr "a"])] in
  first_failure payload = Some "all y values must be numeric" /\
  _validate_plot_request payload = Raise OverflowError.
Proof. split; vm_compute; reflexivity. Qed.

(** ** Lengths of the accepted series *)

(** C2. When the validator accepts, [x_values] and [y_values] have the same
    length, between 2 and 5000, whether [x] was supplied or synthesized. *)
Theorem accepted_lengths payload xs ys meta :
  _validate_plot_request payload = Return (Accepted xs ys meta) ->
  length xs = length ys /\ (2 <= length ys <= 5000)%nat.
Proof.
  intros (fields & items & _ & _ & _ & Hlen & Hys & _ & Hx)%validate_accepted_inv.
  apply float_each_length in Hys. split; [|lia].
  destruct Hx as [[_ ->]|[_ (xitems & fx & _ & Hxlen & Hfx & ->)]].
  - rewrite length_map, py_range_length. reflexivity.
  - rewrite length_map. apply float_each_length in Hfx. lia.
Qed.

(** C6. When the validator accepts a payload without an [x] field,
    [x_values] is [0, 1, ..., len(y) - 1] for the [y] of the payload, whose
    conversion is [y_values]: as long as [y_values]. *)
Theorem synthesized_x payload xs ys meta :
  _validate_plot_request payload = Return (Accepted xs ys meta) ->
  no_x_field payload = true ->
  let y := array_items (resolved_y payload) in
  xs = map NInt (py_range (length y)) /\
  float_each y = Return ys /\
  length ys = length y /\
  xs = map NInt (py_range (length ys)) /\
  length xs = length ys /\
  forall i, (i < length y)%nat -> xs !! i = Some (NInt (Z.of_nat i)).
Proof.
  intros Hacc Hnox.
  destruct (validate_accepted_inv _ _ _ _ Hacc)
    as (fields & items & -> & _ & Hy & _ & Hys & _ & Hx).
  assert (Hnone : is_none (resolved_x (PDict fields)) = true).
  { unfold no_x_field in Hnox. unfold resolved_x, dict_get, dict_get_default.
    destruct (payload_data (PDict fields)); try reflexivity.
    destruct (assoc "x" entries); [discriminate|reflexivity]. }
  destruct Hx as [[_ ->]|[Hsome _]]; [|congruence].
  cbv zeta. unfold array_items. rewrite Hy.
  pose proof (float_each_length _ _ Hys) as Hlen. rewrite Hlen.
  split; [reflexivity|]. split; [exact Hys|]. split; [reflexivity|].
  split; [reflexivity|]. split.
  - rewrite length_map, py_range_length. reflexivity.
  - intros i Hi. rewrite list_lookup_fmap, py_range_lookup by assumption.
    reflexivity.
Qed.

(** ** The numeric checks *)

(** An array whose elements all convert passes the numeric check of [y]:
    with no [x], the payload is accepted with the converted values. *)
Lemma convertible_y_accepted fields ys fs :
  as_array (resolved_y (PDict fields)) = Some ys ->
  is_none (resolved_x (PDict fields)) = true ->
  (2 <= length ys <= 5000)%nat ->
  float_each ys = Return fs ->
  _validate_plot_request (PDict fields) =
  Return (Accepted (map NInt (py_range (length fs))) fs (build_meta fields)).
Proof.
  intros Hy Hx Hlen Hfs. rewrite validate_resolved. cbv zeta.
  assert (Hdata : is_none (payload_data (PDict fields)) = false).
  { unfold resolved_y in Hy. destruct (payload_data (PDict fields)); try reflexivity.
    discriminate. }
  rewrite Hdata, Hy, Hfs, Hx.
  destruct (Nat.ltb_spec (length ys) 2); [lia|].
  destruct (Nat.ltb_spec 5000 (length ys)); [lia|]. reflexivity.
Qed.

(** Strings the runtime parses convert to the parsed values. *)
Lemma float_each_strings strs fs :
  Forall2 (fun s f => float_of_str s = Some f) strs fs ->
  float_each (map PStr strs) = Return fs.
Proof.
  induction 1 as [|s f strs fs Hs _ IH]; [reflexivity|].
  cbn [map]. rewrite float_each_cons. cbn [py_float]. rewrite Hs, IH. reflexivity.
Qed.

(** A flat array of numeric strings validates with the parsed values. *)
Lemma numeric_strings_accepted strs fs :
  Forall2 (fun s f => float_of_str s = Some f) strs fs ->
  (2 <= length strs <= 5000)%nat ->
  _validate_plot_request (PDict [("data", PList (map PStr strs))]) =
  Return (Accepted (map NInt (py_range (length fs))) fs
            (build_meta [("data", PList (map PStr strs))])).
Proof.
  intros Hparse Hlen. apply (convertible_y_accepted _ (map PStr strs)).
  - reflexivity.
  - reflexivity.
  - rewrite length_map. assumption.
  - apply float_each_strings. assumption.
Qed.

(** Booleans convert: [float(True)] is [1.0] and [float(False)] is [0.0]. *)
Lemma py_float_bool b :
  py_float (PBool b) =
  Return (if b then S754_finite false 4503599627370496 (-52) else S754_zero false).
Proof. destruct b; reflexivity. Qed.

(** Once the shape and length rules pass, the validator answers "all y
    values must be numeric" exactly when the comprehension over [y] raises
    [TypeError] or [ValueError]. *)
Lemma y_error_iff_caught fields ys :
  as_array (resolved_y (PDict fields)) = Some ys ->
  (2 <= length ys <= 5000)%nat ->
  _validate_plot_request (PDict fields) = Return (Rejected "all y values must be numeric")
  <-> exists e, float_each ys = Raise e /\ caught e = true.
Proof.
  intros Hy Hlen. rewrite validate_resolved. cbv zeta.
  assert (Hdata : is_none (payload_data (PDict fields)) = false).
  { unfold resolved_y in Hy. destruct (payload_data (PDict fields)); try reflexivity.
    discriminate. }
  rewrite Hdata, Hy.
  destruct (Nat.ltb_spec (length ys) 2); [lia|].
  destruct (Nat.ltb_spec 5000 (length ys)); [lia|].
  destruct (float_each ys) as [fs|e].
  - split; [|intros (e & [=] & _)].
    destruct (is_none (resolved_x (PDict fields))); [discriminate|].
    destruct (as_array (resolved_x (PDict fields))) as [xs|]; [|discriminate].
    destruct (negb (length xs =? length fs)%nat); [discriminate|].
    destruct (float_each xs) as [fx|e]; [discriminate|].
    destruct (caught e); discriminate.
  - destruct (caught e) eqn:He.
    + split; eauto.
    + split; [discriminate|]. intros (e' & [= <-] & He'). congruence.
Qed.

End ValidatorProperties.

Section ServiceProperties.

Context `{Runtime}.

(** ** POST /plots *)

(** The ways [create_plot] ends on a JSON-typed body. *)
Lemma create_plot_cases b d st :
  is_json b = true ->
  create_plot b d st =
  match validated_body b with
  | Raise e => (Unhandled e, st)
  | Return (Rejected message) => (Json (error_body message) 400, st)
  | Return (Accepted xs ys meta) =>
      match render_png xs ys meta with
      | Raise e => (Unhandled e, st)
      | Return content =>
          (Json [("status", PStr "ok");
                 ("plot_id", PStr (uuid4 d));
                 ("created_at", PStr (utcnow_isoformat d ++ "Z"));
                 ("image_path", PStr (png_path (uuid4 d)))] 200,
           {| PLOTS := <[uuid4 d := {| path := png_path (uuid4 d);
                                       created_at := utcnow_isoformat d ++ "Z" |}]>
                         (PLOTS st);
              disk := <[png_path (uuid4 d) := content]> (disk st) |})
      end
  end.
Proof.
  intros Hjson. unfold create_plot, validated_body. rewrite Hjson. cbn [negb].
  destruct (get_json_silent b) as [payload|e]; [|reflexivity].
  unfold mbind, result_bind.
  destruct (_validate_plot_request payload) as [[xs ys meta|message]|e];
    try reflexivity.
  unfold _generate_plot_file, png_path, mbind, result_bind.
  destruct (render_png xs ys meta) as [content|e]; reflexivity.
Qed.

(** A response of [create_plot] with status 200 comes from the generator. *)
Lemma create_plot_ok_inv b d st resp st' :
  create_plot b d st = (resp, st') ->
  status_code resp = 200 ->
  exists xs ys meta content,
    is_json b = true /\
    validated_body b = Return (Accepted xs ys meta) /\
    render_png xs ys meta = Return content /\
    resp = Json [("status", PStr "ok");
                 ("plot_id", PStr (uuid4 d));
                 ("created_at", PStr (utcnow_isoformat d ++ "Z"));
                 ("image_path", PStr (png_path (uuid4 d)))] 200 /\
    st' = {| PLOTS := <[uuid4 d := {| path := png_path (uuid4 d);
                                      created_at := utcnow_isoformat d ++ "Z" |}]>
                        (PLOTS st);
             disk := <[png_path (uuid4 d) := content]> (disk st) |}.
Proof.
  destruct (is_json b) eqn:Hjson.
  - rewrite (create_plot_cases b d st Hjson).
    destruct (validated_body b) as [[xs ys meta|message]|e];
      [destruct (render_png xs ys meta) as [content|e] eqn:Hrender|..];
      intros [= <- <-]; try discriminate.
    intros _. exists xs, ys, meta, content. auto.
  - unfold create_plot. rewrite Hjson. intros [= <- <-]. discriminate.
Qed.

(** Any other response of [create_plot] leaves the state as it was. *)
Lemma create_plot_not_ok b d st :
  status_code (create_plot b d st).1 <> 200 -> (create_plot b d st).2 = st.
Proof.
  destruct (is_json b) eqn:Hjson.
  - rewrite (create_plot_cases b d st Hjson).
    destruct (validated_body b) as [[xs ys meta|message]|e];
      [destruct (render_png xs ys meta) as [content|e]|..];
      cbn; congruence.
  - unfold create_plot. rewrite Hjson. reflexivity.
Qed.

(** A payload the validator answers with a message is answered 400 with
    that message, and the state (index and files) is the one before the
    request. *)
Theorem rejected_payload_changes_nothing b d st message :
  is_json b = true ->
  validated_body b = Return (Rejected message) ->
  create_plot b d st = (Json (error_body message) 400, st) /\
  PLOTS (create_plot b d st).2 = PLOTS st /\
  disk (create_plot b d st).2 = disk st.
Proof.
  intros Hjson Hrej. rewrite (create_plot_cases b d st Hjson), Hrej. auto.
Qed.

(** C5. A payload that fails validation is to be answered 400.  The payload
    [{"data": [10**400, 1]}] fails the numeric rule of [y], and POST /plots
    answers it 500: the [OverflowError] of [float] leaves the validator and
    the view.  The state is left as it was. *)
Theorem failed_validation_answered_500 d st :
  let payload := PDict [("data", PList [PInt (10 ^ 400); PInt 1])] in
  let b := {| is_json := true; decoded := Return (Some payload) |} in
  first_failure payload = Some "all y values must be numeric" /\
  status_code (create_plot b d st).1 = 500 /\
  (create_plot b d st).2 = st.
Proof.
  cbv zeta. split; [vm_compute; reflexivity|].
  rewrite create_plot_cases by reflexivity.
  assert (Hval : validated_body
                   {| is_json := true;
                      decoded := Return (Some (PDict [("data",
                                   PList [PInt (10 ^ 400); PInt 1])])) |} =
                 Raise OverflowError) by (vm_compute; reflexivity).
  rewrite Hval. split; reflexivity.
Qed.

(** A JSON-typed body whose silent decoding returns nothing, or something
    other than an object, is answered 400 "request body must be a json
    object"; the state is unchanged. *)
Theorem non_object_body_rejected b d st :
  is_json b = true ->
  decoded b = Return None \/ (exists v, decoded b = Return (Some v) /\ is_dict v = false) ->
  create_plot b d st =
  (Json (error_body "request body must be a json object") 400, st).
Proof.
  intros Hjson Hbody. rewrite (create_plot_cases b d st Hjson).
  assert (Hval : validated_body b =
                 Return (Rejected "request body must be a json object")).
  { unfold validated_body, get_json_silent.
    destruct Hbody as [->|(v & -> & Hv)]; [reflexivity|].
    destruct v; try reflexivity. discriminate. }
  rewrite Hval. reflexivity.
Qed.

(** C8. A JSON-typed body that does not decode to an object is to be
    answered 400 without anything being raised.  On a body of 5000 opening
    brackets the decoder raises [RecursionError], which [silent=True] does
    not swallow: the exception leaves the view and the answer is 500. *)
Theorem deep_nesting_answered_500 d st :
  let b := deeply_nested_body in
  get_json_silent b = Raise RecursionError /\
  create_plot b d st = (Unhandled RecursionError, st) /\
  status_code (create_plot b d st).1 = 500.
Proof.
  cbv zeta. split; [reflexivity|].
  rewrite create_plot_cases by reflexivity. split; reflexivity.
Qed.

(** C9. The numeric check is to report every element whose conversion
    raises.  [float(10**400)] raises [OverflowError]; the validator lets it
    escape, and POST /plots answers 500 instead of 400 "all y values must
    be numeric". *)
Theorem huge_int_is_not_reported d st :
  let payload := PDict [("data", PList [PInt (10 ^ 400); PInt 1])] in
  py_float (PInt (10 ^ 400)) = Raise OverflowError /\
  _validate_plot_request payload = Raise OverflowError /\
  create_plot {| is_json := true; decoded := Return (Some payload) |} d st =
  (Unhandled OverflowError, st) /\
  status_code (create_plot {| is_json := true; decoded := Return (Some payload) |}
                 d st).1 = 500.
Proof.
  cbv zeta.
  assert (Hval : _validate_plot_request
                   (PDict [("data", PList [PInt (10 ^ 400); PInt 1])]) =
                 Raise OverflowError) by (vm_compute; reflexivity).
  split; [vm_compute; reflexivity|]. split; [exact Hval|].
  assert (Hpost : create_plot
            {| is_json := true;
               decoded := Return (Some (PDict [("data",
                            PList [PInt (10 ^ 400); PInt 1])])) |}
            d st = (Unhandled OverflowError, st)).
  { rewrite create_plot_cases by reflexivity.
    unfold validated_body, get_json_silent, mbind, result_bind. cbn [decoded].
    rewrite Hval. reflexivity. }
  split; [exact Hpost|]. rewrite Hpost. reflexivity.
Qed.

(** C10. After a POST answered 200, the index holds, under the returned
    [plot_id], the returned [image_path] and [created_at]. *)
Theorem created_plot_is_indexed b d st body st' :
  create_plot b d st = (Json body 200, st') ->
  exists plot_id image_path created,
    body = [("status", PStr "ok");
            ("plot_id", PStr plot_id);
            ("created_at", PStr created);
            ("image_path", PStr image_path)] /\
    PLOTS st' !! plot_id = Some {| path := image_path; created_at := created |}.
Proof.
  intros Hpost.
  destruct (create_plot_ok_inv _ _ _ _ _ Hpost eq_refl)
    as (xs & ys & meta & content & _ & _ & _ & [= ->] & ->).
  eexists _, _, _. split; [reflexivity|].
  cbn. apply lookup_insert_eq.
Qed.

(** ** GET /plots/<plot_id> *)

(** A download returns the state it was given. *)
Lemma download_plot_state plot_id st : (download_plot plot_id st).2 = st.
Proof.
  unfold download_plot. destruct (PLOTS st !! plot_id) as [info|]; [|reflexivity].
  destruct (String.eqb (path info) "" || negb (os_path_exists st (path info)));
    reflexivity.
Qed.

(** The guard on the empty path adds nothing to the test on the disk. *)
Lemma missing_guard st p :
  String.eqb p "" || negb (os_path_exists st p) = negb (os_path_exists st p).
Proof. unfold os_path_exists. destruct (String.eqb p ""); reflexivity. Qed.

Lemma os_path_exists_true st p :
  os_path_exists st p = true -> exists content, disk st !! p = Some content.
Proof.
  unfold os_path_exists. destruct (String.eqb p ""); [discriminate|].
  intros Hex%bool_decide_eq_true. destruct Hex as [content Hfile]. eauto.
Qed.

(** The three ways [download_plot] ends: its own 404, its own 500, or what
    [send_file] does with the recorded path. *)
Lemma download_plot_cases plot_id st :
  let resp := (download_plot plot_id st).1 in
  (PLOTS st !! plot_id = None /\
   resp = Json (error_body ("plot '" ++ plot_id ++ "' not found")) 404) \/
  (exists info,
     PLOTS st !! plot_id = Some info /\
     os_path_exists st (path info) = false /\
     resp = Json (error_body "plot file is missing or unavailable") 500) \/
  (exists info,
     PLOTS st !! plot_id = Some info /\
     os_path_exists st (path info) = true /\
     resp = send_file (path info) "image/png" ("plot-" ++ plot_id ++ ".png") st).
Proof.
  cbv zeta. unfold download_plot.
  destruct (PLOTS st !! plot_id) as [info|]; [|left; auto].
  right. rewrite missing_guard.
  destruct (os_path_exists st (path info)) eqn:Hex; cbn [negb fst].
  - right. exists info. auto.
  - left. exists info. auto.
Qed.

(** [send_file] sends the file or raises; it returns no JSON body. *)
Lemma send_file_cases file_path mimetype download_name st :
  (exists content,
     flask_open st file_path = Some content /\
     send_file file_path mimetype download_name st =
     SendFile file_path content mimetype download_name) \/
  (flask_open st file_path = None /\
   send_file file_path mimetype download_name st = Unhandled FileNotFoundError).
Proof.
  unfold send_file. destruct (flask_open st file_path) as [content|]; eauto.
Qed.

(** C7. A download changes neither the index nor the files, and repeating
    it on the same state gives the same response each time. *)
Theorem download_reads_only plot_id st :
  (download_plot plot_id st).2 = st /\
  forall n,
    serve (replicate n (GET_plot plot_id)) st =
    (replicate n (GET_plot plot_id, (download_plot plot_id st).1), st).
Proof.
  pose proof (download_plot_state plot_id st) as Hst.
  split; [exact Hst|].
  induction n as [|n IH]; [reflexivity|].
  cbn [replicate serve handle].
  destruct (download_plot plot_id st) as [resp st1] eqn:Hd.
  cbn [snd fst] in *. subst st1. rewrite IH. reflexivity.
Qed.

(** ** GET /health *)

(** What one request does to the index. *)
Lemma handle_index r st :
  match generated_id (r, (handle r st).1) with
  | Some plot_id => exists info, PLOTS (handle r st).2 = <[plot_id := info]> (PLOTS st)
  | None => PLOTS (handle r st).2 = PLOTS st
  end.
Proof.
  destruct r as [|b d|plot_id]; cbn [handle generated_id].
  - reflexivity.
  - destruct (create_plot b d st) as [resp st'] eqn:Hpost. cbn [fst snd].
    destruct (Z.eqb_spec (status_code resp) 200) as [Hok|Hne].
    + destruct (create_plot_ok_inv _ _ _ _ _ Hpost Hok)
        as (xs & ys & meta & content & _ & _ & _ & _ & ->).
      cbn. eauto.
    + pose proof (create_plot_not_ok b d st) as Hsame.
      rewrite Hpost in Hsame. cbn [fst snd] in Hsame. rewrite Hsame; auto.
  - rewrite download_plot_state. reflexivity.
Qed.

Lemma serve_cons r rest st :
  serve (r :: rest) st =
  ((r, (handle r st).1) :: (serve rest (handle r st).2).1,
   (serve rest (handle r st).2).2).
Proof.
  cbn [serve]. destruct (handle r st) as [resp st1]. cbn [fst snd].
  destruct (serve rest st1) as [log st2]. reflexivity.
Qed.

(** Every successful POST generated one identifier. *)
Lemma generated_ids_count log :
  length (generated_ids log) = length (List.filter successful_post log).
Proof.
  unfold generated_ids. induction log as [|[r resp] log IH]; [reflexivity|].
  cbn [omap list_omap List.filter].
  destruct r as [|b d|plot_id]; cbn [generated_id successful_post]; try exact IH.
  destruct (status_code resp =? 200)%Z; cbn [length]; congruence.
Qed.

(** With distinct identifiers, none of them in the index yet, the index
    grows by one entry for each identifier generated. *)
Lemma serve_index_size reqs st :
  NoDup (generated_ids (serve reqs st).1) ->
  (forall plot_id, plot_id ∈ generated_ids (serve reqs st).1 ->
                   PLOTS st !! plot_id = None) ->
  size (PLOTS (serve reqs st).2) =
  (size (PLOTS st) + length (generated_ids (serve reqs st).1))%nat.
Proof.
  revert st. induction reqs as [|r rest IH]; intros st.
  - cbn. intros _ _. lia.
  - rewrite serve_cons. cbn [fst snd]. unfold generated_ids.
    cbn [omap list_omap]. fold (generated_ids (serve rest (handle r st).2).1).
    pose proof (handle_index r st) as Hstep.
    destruct (generated_id (r, (handle r st).1)) as [plot_id|].
    + destruct Hstep as [info Hstep].
      intros [Hfresh Hnodup]%NoDup_cons Hnew.
      rewrite IH; [| assumption |].
      * rewrite Hstep. rewrite map_size_insert_None by (apply Hnew; left).
        cbn [length]. lia.
      * intros other Hother. rewrite Hstep.
        rewrite lookup_insert_ne by (intros ->; contradiction).
        apply Hnew. right. assumption.
    + intros Hnodup Hnew. rewrite IH; [| assumption |].
      * rewrite Hstep. reflexivity.
      * intros other Hother. rewrite Hstep. apply Hnew. assumption.
Qed.

(** C3. After any sequence of requests from process start, with the
    generated identifiers distinct, the index has one entry for each POST
    answered 200, and GET /health answers 200 with that count. *)
Theorem health_counts_successful_posts files reqs :
  let log := (serve reqs (start files)).1 in
  let st := (serve reqs (start files)).2 in
  NoDup (generated_ids log) ->
  size (PLOTS st) = length (List.filter successful_post log) /\
  health st =
  (Json [("status", PStr "ok");
         ("service", PStr "data-plot-visualizer");
         ("stored_plots", PInt (Z.of_nat (length (List.filter successful_post log))))] 200,
   st).
Proof.
  cbv zeta. intros Hnodup.
  assert (Hsize : size (PLOTS (serve reqs (start files)).2) =
                  length (List.filter successful_post (serve reqs (start files)).1)).
  { rewrite serve_index_size; [| assumption |].
    - cbn [start PLOTS]. rewrite map_size_empty, generated_ids_count. reflexivity.
    - intros plot_id _. cbn [start PLOTS]. apply lookup_empty. }
  split; [exact Hsize|]. unfold health. rewrite Hsize. reflexivity.
Qed.

End ServiceProperties.

(** C4. A download is to fail in two ways only, 404 for an identifier that
    is not in the index and 500 for a recorded path that is not on disk,
    both with the error envelope.  With the service started from another
    directory than that of [app.py] and the default relative plots
    directory, a plot that is in the index and whose file [os.path.exists]
    finds is answered 500 without the envelope: [send_file] looks under
    [app.root_path] and raises [FileNotFoundError]. *)
Theorem indexed_plot_not_served :
  let st := (@create_plot detached_runtime (json_body flat_payload) first_draw
               (start ∅)).2 in
  let resp := (@download_plot detached_runtime (uuid4 first_draw) st).1 in
  (exists info, PLOTS st !! uuid4 first_draw = Some info /\
                os_path_exists st (path info) = true) /\
  resp = Unhandled FileNotFoundError /\
  status_code resp = 500 /\
  (forall message status, resp <> Json (error_body message) status).
Proof.
  cbv zeta. split; [|split; [|split]].
  - eexists. split; vm_compute; reflexivity.
  - vm_compute. reflexivity.
  - vm_compute. reflexivity.
  - intros message status. vm_compute. discriminate.
Qed.

(** * The theorems on concrete requests *)

Lemma accepted_lengths_witness :
  exists xs ys meta,
    @_validate_plot_request bare_runtime xy_payload = Return (Accepted xs ys meta) /\
    length xs = length ys /\ (2 <= length ys <= 5000)%nat.
Proof.
  eassert (Hv : @_validate_plot_request bare_runtime xy_payload =
                Return (Accepted _ _ _)) by (vm_compute; reflexivity).
  eexists _, _, _. split; [exact Hv|].
  exact (@accepted_lengths bare_runtime _ _ _ _ Hv).
Defined.

Lemma synthesized_x_witness :
  exists xs ys meta,
    @_validate_plot_request bare_runtime flat_payload = Return (Accepted xs ys meta) /\
    xs = [NInt 0; NInt 1; NInt 2; NInt 3; NInt 4] /\
    length xs = length ys.
Proof.
  eassert (Hv : @_validate_plot_request bare_runtime flat_payload =
                Return (Accepted _ _ _)) by (vm_compute; reflexivity).
  destruct (@synthesized_x bare_runtime _ _ _ _ Hv eq_refl)
    as (Hxs & _ & _ & _ & Hlen & _).
  eexists _, _, _. split; [exact Hv|]. split; [exact Hxs | exact Hlen].
Defined.

Lemma rejected_payload_changes_nothing_witness :
  @create_plot bare_runtime (json_body mismatched_payload) first_draw (start ∅) =
  (Json (error_body "x and y must have the same length") 400, start ∅).
Proof.
  apply (@rejected_payload_changes_nothing bare_runtime
           (json_body mismatched_payload) first_draw (start ∅)).
  - reflexivity.
  - vm_compute. reflexivity.
Defined.

Lemma non_object_body_rejected_witness :
  @create_plot bare_runtime malformed_body first_draw (start ∅) =
  (Json (error_body "request body must be a json object") 400, start ∅) /\
  @create_plot bare_runtime (json_body (PList [PInt 1; PInt 2])) first_draw (start ∅) =
  (Json (error_body "request body must be a json object") 400, start ∅).
Proof.
  split.
  - apply (@non_object_body_rejected bare_runtime); [reflexivity|].
    left. reflexivity.
  - apply (@non_object_body_rejected bare_runtime); [reflexivity|].
    right. eexists. split; reflexivity.
Defined.

Lemma created_plot_is_indexed_witness :
  exists body st',
    @create_plot bare_runtime (json_body flat_payload) first_draw (start ∅) =
    (Json body 200, st') /\
    PLOTS st' !! uuid4 first_draw =
    Some {| path := "plots/6f1c2a9e-0b7d-4c55-9a3e-2d1f0e8b7c41.png";
            created_at := "2024-05-01T10:00:00.000001Z" |}.
Proof.
  eassert (Hpost : @create_plot bare_runtime (json_body flat_payload) first_draw
                     (start ∅) = (Json _ 200, _)) by (vm_compute; reflexivity).
  destruct (@created_plot_is_indexed bare_runtime _ _ _ _ _ Hpost)
    as (plot_id & image_path & created & Hbody & Hindex).
  eexists _, _. split; [exact Hpost|].
  injection Hbody as <- <- <-. exact Hindex.
Defined.

Lemma health_counts_successful_posts_witness :
  NoDup (generated_ids (@serve bare_runtime sample_requests (start ∅)).1) /\
  size (PLOTS (@serve bare_runtime sample_requests (start ∅)).2) = 2%nat.
Proof.
  assert (Hnodup : NoDup (generated_ids (@serve bare_runtime sample_requests (start ∅)).1)).
  { apply (bool_decide_unpack _). vm_compute. exact I. }
  split; [exact Hnodup|].
  destruct (@health_counts_successful_posts bare_runtime ∅ sample_requests Hnodup)
    as [Hsize _].
  rewrite Hsize. vm_compute. reflexivity.
Defined.

(** * Further properties of the validator *)

Section ValidatorEdges.

Context `{Runtime}.

(** A raising comprehension raises what one of its elements raises. *)
Lemma float_each_raise_inv items e :
  float_each items = Raise e -> exists v, v ∈ items /\ py_float v = Raise e.
Proof.
  induction items as [|v rest IH]; [discriminate|].
  rewrite float_each_cons.
  destruct (py_float v) as [f|e'] eqn:Hv.
  - destruct (float_each rest) as [fs|e'']; [discriminate|].
    intros [= ->]. destruct (IH eq_refl) as (w & Hw & Hraise).
    exists w. split; [right; assumption|assumption].
  - intros [= ->]. exists v. split; [left|assumption].
Qed.

(** [float] raises [OverflowError] on an [int] only. *)
Lemma py_float_overflow_int v :
  py_float v = Raise OverflowError -> exists n, v = PInt n.
Proof.
  destruct v as [|b|n|f|s|items|items|entries]; cbn [py_float]; try discriminate.
  - destruct b; vm_compute; discriminate.
  - eauto.
  - destruct (float_of_str s); discriminate.
Qed.

(** The validator raises nothing but [OverflowError], and only on a payload
    whose [y] or [x] array holds an [int] that [float] cannot hold. *)
Theorem validator_raises_only_overflow payload e :
  _validate_plot_request payload = Raise e ->
  e = OverflowError /\
  exists n,
    PInt n ∈ (array_items (resolved_y payload) ++ array_items (resolved_x payload))%list /\
    py_float (PInt n) = Raise OverflowError.
Proof.
  destruct payload as [| | | | | | |fields]; try discriminate.
  rewrite validate_resolved. cbv zeta. unfold array_items.
  set (p := PDict fields).
  destruct (is_none (payload_data p)); [discriminate|].
  destruct (as_array (resolved_y p)) as [ys|]; [|discriminate].
  destruct (length ys <? 2)%nat; [discriminate|].
  destruct (5000 <? length ys)%nat; [discriminate|].
  assert (Huncaught : forall items e',
            float_each items = Raise e' -> caught e' = false ->
            e' = OverflowError /\
            exists n, PInt n ∈ items /\ py_float (PInt n) = Raise OverflowError).
  { intros items e' Hraise Hun.
    destruct (float_each_raise_inv _ _ Hraise) as (v & Hin & Hv).
    destruct (py_float_raises _ _ Hv) as [-> | [-> | ->]]; try discriminate.
    split; [reflexivity|].
    destruct (py_float_overflow_int _ Hv) as [n ->]. eauto. }
  destruct (float_each ys) as [y_values|e'] eqn:Hys.
  - destruct (is_none (resolved_x p)); [discriminate|].
    destruct (as_array (resolved_x p)) as [xs|]; [|discriminate].
    destruct (negb (length xs =? length y_values)%nat); [discriminate|].
    destruct (float_each xs) as [x_values|e'] eqn:Hxs; [discriminate|].
    destruct (caught e') eqn:Hc; [discriminate|]. intros [= <-].
    destruct (Huncaught _ _ Hxs Hc) as (-> & n & Hin & Hn).
    split; [reflexivity|]. exists n. split; [|assumption].
    apply elem_of_app. right. assumption.
  - destruct (caught e') eqn:Hc; [discriminate|]. intros [= <-].
    destruct (Huncaught _ _ Hys Hc) as (-> & n & Hin & Hn).
    split; [reflexivity|]. exists n. split; [|assumption].
    apply elem_of_app. left. assumption.
Qed.

(** In an accepted payload, [x_values] are the synthesized ints exactly when
    [x] is absent or [null]; a supplied [x] is converted to floats. *)
Theorem x_values_kind payload xs ys meta :
  _validate_plot_request payload = Return (Accepted xs ys meta) ->
  (is_none (resolved_x payload) = true <-> xs = map NInt (py_range (length ys))) /\
  (is_none (resolved_x payload) = false <->
   exists fx, xs = map NFloat fx /\
              float_each (array_items (resolved_x payload)) = Return fx).
Proof.
  intros Hacc.
  destruct (validate_accepted_inv _ _ _ _ Hacc)
    as (fields & items & -> & _ & _ & Hlen & Hys & _ & Hx).
  apply float_each_length in Hys.
  assert (Hdiff : forall fx, map NFloat fx <> map NInt (py_range (length ys))).
  { intros fx Heq. destruct (length ys) as [|n] eqn:Hn; [lia|].
    destruct fx; discriminate. }
  destruct Hx as [[Hnone ->]|[Hsome (xitems & fx & Hxa & _ & Hfx & ->)]];
    rewrite ?Hnone, ?Hsome.
  - split; [split; auto|]. split; [discriminate|].
    intros (fx & Heq & _). symmetry in Heq. destruct (Hdiff _ Heq).
  - split.
    + split; [discriminate|]. intros Heq. destruct (Hdiff _ Heq).
    + split; [|reflexivity]. intros _. exists fx. split; [reflexivity|].
      unfold array_items. rewrite Hxa. assumption.
Qed.

(** The accepted values are the conversions of the payload's elements, in
    the payload's order. *)
Theorem accepted_values_are_conversions payload xs ys meta i :
  _validate_plot_request payload = Return (Accepted xs ys meta) ->
  (forall v, array_items (resolved_y payload) !! i = Some v ->
             exists f, ys !! i = Some f /\ py_float v = Return f) /\
  (forall v, array_items (resolved_x payload) !! i = Some v ->
             exists f, xs !! i = Some (NFloat f) /\ py_float v = Return f).
Proof.
  intros Hacc.
  destruct (validate_accepted_inv _ _ _ _ Hacc)
    as (fields & items & -> & _ & Hy & _ & Hys & _ & Hx).
  unfold array_items. rewrite Hy. split.
  - intros v Hv. apply (float_each_lookup items); assumption.
  - intros v Hv.
    destruct Hx as [[Hnone _]|[_ (xitems & fx & Hxa & _ & Hfx & ->)]].
    + destruct (resolved_x (PDict fields)); discriminate.
    + rewrite Hxa in Hv.
      destruct (float_each_lookup _ _ _ _ Hfx Hv) as (f & Hf & Hconv).
      exists f. split; [|assumption].
      rewrite list_lookup_fmap, Hf. reflexivity.
Qed.

(** JSON floats pass unchanged, the non-finite ones included: a flat array
    of 2 to 5000 floats is accepted with those very values. *)
Theorem floats_accepted_unchanged fields fs :
  assoc "data" fields = Some (PList (map PFloat fs)) ->
  (2 <= length fs <= 5000)%nat ->
  _validate_plot_request (PDict fields) =
  Return (Accepted (map NInt (py_range (length fs))) fs (build_meta fields)).
Proof.
  intros Hdata Hlen.
  assert (Heach : float_each (map PFloat fs) = Return fs).
  { clear. induction fs as [|f fs IH]; [reflexivity|].
    cbn [map]. rewrite float_each_cons, IH. reflexivity. }
  apply (convertible_y_accepted fields (map PFloat fs)).
  - unfold resolved_y, payload_data, dict_get, dict_get_default.
    rewrite Hdata. reflexivity.
  - unfold resolved_x, payload_data, dict_get, dict_get_default.
    rewrite Hdata. reflexivity.
  - rewrite length_map. assumption.
  - exact Heach.
Qed.

(** When [y] has passed, an [x] array of another length is answered "x and
    y must have the same length" whatever its elements are. *)
Theorem length_mismatch_rejected fields ys fs xs :
  as_array (resolved_y (PDict fields)) = Some ys ->
  (2 <= length ys <= 5000)%nat ->
  float_each ys = Return fs ->
  as_array (resolved_x (PDict fields)) = Some xs ->
  length xs <> length ys ->
  _validate_plot_request (PDict fields) =
  Return (Rejected "x and y must have the same length").
Proof.
  intros Hy Hlen Hfs Hx Hne. rewrite validate_resolved. cbv zeta.
  assert (Hdata : is_none (payload_data (PDict fields)) = false).
  { unfold resolved_y in Hy. destruct (payload_data (PDict fields)); try reflexivity.
    discriminate. }
  assert (Hsome : is_none (resolved_x (PDict fields)) = false).
  { destruct (resolved_x (PDict fields)); try reflexivity. discriminate. }
  rewrite Hdata, Hy, Hfs, Hsome, Hx.
  destruct (Nat.ltb_spec (length ys) 2); [lia|].
  destruct (Nat.ltb_spec 5000 (length ys)); [lia|].
  apply float_each_length in Hfs.
  destruct (Nat.eqb_spec (length xs) (length fs)); [lia|]. reflexivity.
Qed.

(** The metadata of an accepted payload: [str] of each field that is
    present, be it [null], and [str] of the default only for a field that is
    absent. *)
Theorem accepted_meta fields xs ys meta :
  _validate_plot_request (PDict fields) = Return (Accepted xs ys meta) ->
  let field key default :=
    match assoc key fields with Some v => py_str v | None => py_str (PStr default) end in
  title meta = field "title" "Data Plot" /\
  x_label meta = field "x_label" "Index" /\
  y_label meta = field "y_label" "Value".
Proof.
  intros Hacc.
  destruct (validate_accepted_inv _ _ _ _ Hacc)
    as (fields' & items & [= <-] & _ & _ & _ & _ & -> & _).
  cbv zeta. unfold build_meta, dict_get_default. cbn [title x_label y_label].
  repeat split; match goal with |- context [assoc ?k fields] =>
    destruct (assoc k fields) end; reflexivity.
Qed.

End ValidatorEdges.

(** * Further properties of the routes *)

Section ServiceEdges.

Context `{Runtime}.

(** ** Paths of the saved plots *)

Lemma string_app_cons c (s t : string) : String c s ++ t = String c (s ++ t).
Proof. reflexivity. Qed.

Lemma string_length_append (s t : string) :
  String.length (s ++ t) = (String.length s + String.length t)%nat.
Proof.
  induction s as [|c s IH]; [reflexivity|].
  rewrite string_app_cons. cbn [String.length Nat.add]. f_equal. exact IH.
Qed.

Lemma string_append_inv_r (s1 s2 t : string) : s1 ++ t = s2 ++ t -> s1 = s2.
Proof.
  revert s2. induction s1 as [|c1 s1 IH]; intros [|c2 s2] Heq.
  - reflexivity.
  - apply (f_equal String.length) in Heq.
    rewrite !string_length_append in Heq. cbn [String.length] in Heq. lia.
  - apply (f_equal String.length) in Heq.
    rewrite !string_length_append in Heq. cbn [String.length] in Heq. lia.
  - rewrite !string_app_cons in Heq. injection Heq as -> Heq.
    f_equal. apply IH. assumption.
Qed.

Lemma string_append_inv_l (s t1 t2 : string) : s ++ t1 = s ++ t2 -> t1 = t2.
Proof.
  induction s as [|c s IH]; [auto|].
  rewrite !string_app_cons. intros [= Heq]. apply IH. assumption.
Qed.

Lemma png_name_no_slash plot_id :
  starts_with_slash plot_id = false -> starts_with_slash (plot_id ++ ".png") = false.
Proof. destruct plot_id as [|c rest]; [reflexivity|]. rewrite string_app_cons. auto. Qed.

(** The generator's path is never the empty path. *)
Lemma png_path_nonempty plot_id : String.eqb (png_path plot_id) "" = false.
Proof.
  apply String.eqb_neq. intros Heq. apply (f_equal String.length) in Heq.
  unfold png_path, os_path_join in Heq.
  destruct (starts_with_slash (plot_id ++ ".png"));
    [|destruct (String.eqb PLOTS_DIR "" || ends_with_slash PLOTS_DIR)];
    rewrite ?string_length_append in Heq; cbn [String.length] in Heq; lia.
Qed.

Lemma png_paths_apart id1 id2 :
  starts_with_slash id1 = false ->
  starts_with_slash id2 = false ->
  png_path id1 = png_path id2 ->
  id1 = id2.
Proof.
  intros H1%png_name_no_slash H2%png_name_no_slash. unfold png_path, os_path_join.
  rewrite H1, H2.
  destruct (String.eqb PLOTS_DIR "" || ends_with_slash PLOTS_DIR).
  - intros Heq%string_append_inv_l. apply (string_append_inv_r _ _ _ Heq).
  - intros Heq%string_append_inv_l%string_append_inv_l.
    apply (string_append_inv_r _ _ _ Heq).
Qed.

(** Identifiers that do not start with a slash, as those of [uuid4], are
    saved under different paths when they differ, so that no plot takes the
    file of another. *)
Theorem png_paths_injective id1 id2 :
  starts_with_slash id1 = false ->
  starts_with_slash id2 = false ->
  id1 <> id2 ->
  png_path id1 <> png_path id2 /\
  String.eqb (png_path id1) "" = false.
Proof.
  intros H1 H2 Hne. split; [|apply png_path_nonempty].
  intros Heq. apply Hne. exact (png_paths_apart _ _ H1 H2 Heq).
Qed.

(** ** POST /plots *)

(** The verdict on a body raises when the decoding raises or the validator
    does. *)
Lemma validated_body_raises b e :
  validated_body b = Raise e <->
  get_json_silent b = Raise e \/
  exists payload, get_json_silent b = Return payload /\
                  _validate_plot_request payload = Raise e.
Proof.
  unfold validated_body, mbind, result_bind.
  destruct (get_json_silent b) as [payload|e'].
  - split.
    + intros Hv. right. exists payload. split; [reflexivity|exact Hv].
    + intros [Hraise|(p & Hp & Hv)]; [discriminate|].
      injection Hp as <-. exact Hv.
  - split.
    + intros [= ->]. left. reflexivity.
    + intros [[= ->]|(p & Hp & _)]; [reflexivity|discriminate].
Qed.

(** The status of a POST: 200 exactly when the body is JSON-typed, the
    validator accepts what it decodes to and the chart is drawn; 400 exactly
    when the body is not JSON-typed or the validator answers with a
    message; 500 exactly when, on a JSON-typed body, the decoding raises,
    the validator raises, or the charting library raises on the accepted
    data. *)
Theorem post_status_cases b d st :
  let resp := (create_plot b d st).1 in
  (status_code resp = 200 <->
   is_json b = true /\
   exists xs ys meta content,
     validated_body b = Return (Accepted xs ys meta) /\
     render_png xs ys meta = Return content) /\
  (status_code resp = 400 <->
   is_json b = false \/ exists message, validated_body b = Return (Rejected message)) /\
  (status_code resp = 500 <->
   is_json b = true /\
   ((exists e, get_json_silent b = Raise e) \/
    (exists payload e, get_json_silent b = Return payload /\
                       _validate_plot_request payload = Raise e) \/
    (exists xs ys meta e,
       validated_body b = Return (Accepted xs ys meta) /\
       render_png xs ys meta = Raise e))) /\
  (is_json b = false -> resp = Json (error_body "expected json body") 400).
Proof.
  cbv zeta. destruct (is_json b) eqn:Hjson.
  - rewrite (create_plot_cases b d st Hjson).
    destruct (validated_body b) as [[xs ys meta|message]|e] eqn:Hval.
    + destruct (render_png xs ys meta) as [content|e] eqn:Hrender;
        cbn [fst status_code]; (split; [|split; [|split]]); try discriminate.
      * split; [intros _|reflexivity]. split; [reflexivity|].
        exists xs, ys, meta, content. auto.
      * split; [discriminate|]. intros [[=]|(m & [=])].
      * split; [discriminate|].
        intros [_ [(e & He)|[(p & e & Hp & He)|(xs' & ys' & meta' & e & [= <- <- <-] & He)]]].
        -- assert (validated_body b = Raise e) by (apply validated_body_raises; auto).
           congruence.
        -- assert (validated_body b = Raise e) by (apply validated_body_raises; eauto).
           congruence.
        -- congruence.
      * split; [discriminate|].
        intros [_ (xs' & ys' & meta' & content & [= <- <- <-] & Hc)]. congruence.
      * split; [discriminate|]. intros [[=]|(m & [=])].
      * split; [intros _|reflexivity]. split; [reflexivity|].
        right. right. exists xs, ys, meta, e. auto.
    + cbn [fst status_code]. (split; [|split; [|split]]); try discriminate.
      * split; [discriminate|]. intros [_ (? & ? & ? & ? & [=] & _)].
      * split; [eauto|reflexivity].
      * split; [discriminate|].
        intros [_ [(e & He)|[(p & e & Hp & He)|(? & ? & ? & ? & [=] & _)]]].
        -- assert (validated_body b = Raise e) by (apply validated_body_raises; auto).
           congruence.
        -- assert (validated_body b = Raise e) by (apply validated_body_raises; eauto).
           congruence.
    + cbn [fst status_code]. (split; [|split; [|split]]); try discriminate.
      * split; [discriminate|]. intros [_ (? & ? & ? & ? & [=] & _)].
      * split; [discriminate|]. intros [[=]|(m & [=])].
      * split; [intros _|reflexivity]. split; [reflexivity|].
        apply validated_body_raises in Hval as [He|(p & Hp & He)]; eauto 6.
  - unfold create_plot. rewrite Hjson. cbn [negb fst status_code].
    (split; [|split; [|split]]); try reflexivity.
    + split; [discriminate|]. intros [[=] _].
    + split; auto.
    + split; [discriminate|]. intros [[=] _].
Qed.

(** What one request does to the state: a POST answered 200 sets one index
    entry and saves one file; any other request leaves the state alone. *)
Lemma handle_effect r st :
  match generated_id (r, (handle r st).1) with
  | Some plot_id =>
      exists content created,
        (handle r st).2 =
        {| PLOTS := <[plot_id := {| path := png_path plot_id; created_at := created |}]>
                      (PLOTS st);
           disk := <[png_path plot_id := content]> (disk st) |}
  | None => (handle r st).2 = st
  end.
Proof.
  destruct r as [|b d|plot_id]; cbn [handle generated_id].
  - reflexivity.
  - destruct (create_plot b d st) as [resp st'] eqn:Hpost. cbn [fst snd].
    destruct (Z.eqb_spec (status_code resp) 200) as [Hok|Hne].
    + destruct (create_plot_ok_inv _ _ _ _ _ Hpost Hok)
        as (xs & ys & meta & content & _ & _ & _ & _ & ->).
      eauto.
    + pose proof (create_plot_not_ok b d st) as Hsame.
      rewrite Hpost in Hsame. cbn [fst snd] in Hsame. auto.
  - apply download_plot_state.
Qed.

(** Only a POST answered 200 changes the state: every other request
    returns the index and the files as they were. *)
Theorem only_successful_post_changes_state r st :
  generated_id (r, (handle r st).1) = None -> (handle r st).2 = st.
Proof.
  intros Hnone. pose proof (handle_effect r st) as Heff.
  rewrite Hnone in Heff. exact Heff.
Qed.

(** A POST answered 200 saves the rendered chart under the generator's
    path and changes no other file and no other index entry. *)
Theorem post_writes_one_file b d st body st' :
  create_plot b d st = (Json body 200, st') ->
  (exists xs ys meta content,
     validated_body b = Return (Accepted xs ys meta) /\
     render_png xs ys meta = Return content /\
     disk st' !! png_path (uuid4 d) = Some content) /\
  (forall p, p <> png_path (uuid4 d) -> disk st' !! p = disk st !! p) /\
  (forall k, k <> uuid4 d -> PLOTS st' !! k = PLOTS st !! k).
Proof.
  intros Hpost.
  destruct (create_plot_ok_inv _ _ _ _ _ Hpost eq_refl)
    as (xs & ys & meta & content & _ & Hval & Hrender & _ & ->).
  cbn [PLOTS disk]. split; [|split].
  - exists xs, ys, meta, content. split; [assumption|]. split; [assumption|].
    apply lookup_insert_eq.
  - intros p Hp. apply lookup_insert_ne. congruence.
  - intros k Hk. apply lookup_insert_ne. congruence.
Qed.

(** Right after the POST that made it, a plot passes both checks of
    [download_plot]: the download is what [send_file] does with the
    recorded path.  When that path is absolute, or [app.root_path] is the
    working directory, [send_file] finds the saved file and sends the
    rendered chart as [image/png] under the name [plot-<id>.png]. *)
Theorem created_plot_downloads b d st body st' :
  create_plot b d st = (Json body 200, st') ->
  exists xs ys meta content,
    validated_body b = Return (Accepted xs ys meta) /\
    render_png xs ys meta = Return content /\
    download_plot (uuid4 d) st' =
    (send_file (png_path (uuid4 d)) "image/png" ("plot-" ++ uuid4 d ++ ".png") st',
     st') /\
    (starts_with_slash (png_path (uuid4 d)) || String.eqb root_path cwd = true ->
     download_plot (uuid4 d) st' =
     (SendFile (png_path (uuid4 d)) content "image/png"
        ("plot-" ++ uuid4 d ++ ".png"),
      st')).
Proof.
  intros Hpost.
  destruct (create_plot_ok_inv _ _ _ _ _ Hpost eq_refl)
    as (xs & ys & meta & content & _ & Hval & Hrender & _ & ->).
  exists xs, ys, meta, content. split; [assumption|]. split; [assumption|].
  assert (Hdown : forall st0,
    st0 = {| PLOTS := <[uuid4 d := {| path := png_path (uuid4 d);
                                       created_at := utcnow_isoformat d ++ "Z" |}]>
                         (PLOTS st);
             disk := <[png_path (uuid4 d) := content]> (disk st) |} ->
    download_plot (uuid4 d) st0 =
    (send_file (png_path (uuid4 d)) "image/png" ("plot-" ++ uuid4 d ++ ".png") st0,
     st0)).
  { intros st0 ->. unfold download_plot, os_path_exists. cbn [PLOTS disk].
    rewrite lookup_insert_eq. cbn [path].
    rewrite png_path_nonempty, lookup_insert_eq.
    rewrite bool_decide_eq_true_2 by eauto. reflexivity. }
  split; [apply Hdown; reflexivity|].
  intros Hsame. rewrite (Hdown _ eq_refl). f_equal.
  unfold send_file, flask_open. rewrite Hsame. cbn [disk].
  rewrite lookup_insert_eq. reflexivity.
Qed.

(** The generator does not look the identifier up: when it is in the index
    already, the POST replaces that entry and the index does not grow. *)
Theorem id_collision_overwrites b d st body st' old :
  create_plot b d st = (Json body 200, st') ->
  PLOTS st !! uuid4 d = Some old ->
  size (PLOTS st') = size (PLOTS st) /\
  PLOTS st' !! uuid4 d =
  Some {| path := png_path (uuid4 d); created_at := utcnow_isoformat d ++ "Z" |}.
Proof.
  intros Hpost Hold.
  destruct (create_plot_ok_inv _ _ _ _ _ Hpost eq_refl)
    as (xs & ys & meta & content & _ & _ & _ & _ & ->).
  cbn [PLOTS]. split.
  - apply map_size_insert_Some. eauto.
  - apply lookup_insert_eq.
Qed.

(** ** Sequences of requests *)

Lemma generated_ids_cons r rest st :
  generated_ids (serve (r :: rest) st).1 =
  match generated_id (r, (handle r st).1) with
  | Some plot_id => plot_id :: generated_ids (serve rest (handle r st).2).1
  | None => generated_ids (serve rest (handle r st).2).1
  end.
Proof.
  rewrite serve_cons. cbn [fst]. unfold generated_ids. cbn [omap list_omap].
  destruct (generated_id (r, (handle r st).1)); reflexivity.
Qed.

Lemma serve_cons_state r rest st :
  (serve (r :: rest) st).2 = (serve rest (handle r st).2).2.
Proof. rewrite serve_cons. reflexivity. Qed.

Lemma index_lookup_other reqs st plot_id :
  plot_id ∉ generated_ids (serve reqs st).1 ->
  PLOTS (serve reqs st).2 !! plot_id = PLOTS st !! plot_id.
Proof.
  revert st. induction reqs as [|r rest IH]; intros st; [reflexivity|].
  rewrite generated_ids_cons, serve_cons_state.
  pose proof (handle_effect r st) as Heff.
  destruct (generated_id (r, (handle r st).1)) as [g|].
  - destruct Heff as (content & created & Heff).
    intros Hnot. apply not_elem_of_cons in Hnot as [Hne Hnot].
    rewrite IH by assumption. rewrite Heff. cbn [PLOTS].
    apply lookup_insert_ne. congruence.
  - intros Hnot. rewrite IH by assumption. rewrite Heff. reflexivity.
Qed.

(** The index entry of an identifier changes only when a POST generates
    that identifier: otherwise it is, after any requests, the entry it was,
    with the same path and creation time. *)
Theorem index_entries_persist reqs st plot_id info :
  PLOTS st !! plot_id = Some info ->
  plot_id ∉ generated_ids (serve reqs st).1 ->
  PLOTS (serve reqs st).2 !! plot_id = Some info.
Proof. intros Hinfo Hnot. rewrite index_lookup_other; assumption. Qed.

Lemma serve_keeps reqs st :
  (forall plot_id, is_Some (PLOTS st !! plot_id) ->
                   is_Some (PLOTS (serve reqs st).2 !! plot_id)) /\
  (forall p, is_Some (disk st !! p) -> is_Some (disk (serve reqs st).2 !! p)).
Proof.
  revert st. induction reqs as [|r rest IH]; intros st; [auto|].
  rewrite serve_cons_state.
  pose proof (handle_effect r st) as Heff.
  destruct (IH (handle r st).2) as [IHindex IHdisk].
  destruct (generated_id (r, (handle r st).1)) as [g|].
  - destruct Heff as (content & created & Heff). split.
    + intros plot_id Hin. apply IHindex. rewrite Heff. cbn [PLOTS].
      rewrite lookup_insert. case_decide; eauto.
    + intros p Hin. apply IHdisk. rewrite Heff. cbn [disk].
      rewrite lookup_insert. case_decide; eauto.
  - rewrite Heff in IHindex, IHdisk |- *. auto.
Qed.

(** Nothing is ever removed: the index and the disk only grow, whatever
    requests are served. *)
Theorem nothing_is_removed reqs st :
  dom (PLOTS st) ⊆ dom (PLOTS (serve reqs st).2) /\
  dom (disk st) ⊆ dom (disk (serve reqs st).2) /\
  (size (PLOTS st) <= size (PLOTS (serve reqs st).2))%nat.
Proof.
  destruct (serve_keeps reqs st) as [Hindex Hdisk].
  assert (Hsub : dom (PLOTS st) ⊆ dom (PLOTS (serve reqs st).2)).
  { intros k Hk%elem_of_dom. apply elem_of_dom. auto. }
  split; [exact Hsub|]. split.
  - intros k Hk%elem_of_dom. apply elem_of_dom. auto.
  - rewrite <- !size_dom. apply subseteq_size. exact Hsub.
Qed.


(** One request keeps every index entry backed by its file. *)
Lemma handle_index_backed r st : index_backed st -> index_backed (handle r st).2.
Proof.
  intros Hinv. pose proof (handle_effect r st) as Heff.
  destruct (generated_id (r, (handle r st).1)) as [g|]; [|rewrite Heff; exact Hinv].
  destruct Heff as (content & created & ->).
  intros plot_id info. cbn [PLOTS]. rewrite lookup_insert. case_decide as Hg.
  - intros [= <-]. cbn [path]. split; [congruence|].
    unfold os_path_exists. cbn [disk]. rewrite png_path_nonempty, lookup_insert_eq.
    apply bool_decide_eq_true_2. eauto.
  - intros Hinfo. destruct (Hinv _ _ Hinfo) as [Hpath Hex]. split; [assumption|].
    unfold os_path_exists in *. cbn [disk].
    destruct (String.eqb (path info) ""); [discriminate|].
    apply bool_decide_eq_true in Hex. apply bool_decide_eq_true_2.
    rewrite lookup_insert. case_decide; eauto.
Qed.

Lemma serve_index_backed reqs st : index_backed st -> index_backed (serve reqs st).2.
Proof.
  revert st. induction reqs as [|r rest IH]; intros st Hinv; [exact Hinv|].
  rewrite serve_cons_state. apply IH, handle_index_backed, Hinv.
Qed.

(** From process start on, every identifier in the index has its file on
    disk under the generator's path, so the two checks of [download_plot]
    pass: the requests themselves never lead to its 404 or to its 500 for
    an indexed plot, and the download is what [send_file] does with the
    path. *)
Theorem served_index_has_files files reqs plot_id info :
  let st := (serve reqs (start files)).2 in
  PLOTS st !! plot_id = Some info ->
  path info = png_path plot_id /\
  is_Some (disk st !! png_path plot_id) /\
  (download_plot plot_id st).1 =
  send_file (png_path plot_id) "image/png" ("plot-" ++ plot_id ++ ".png") st.
Proof.
  cbv zeta. intros Hinfo.
  assert (Hinv : index_backed (serve reqs (start files)).2).
  { apply serve_index_backed. intros k i. cbn [start PLOTS].
    rewrite lookup_empty. discriminate. }
  destruct (Hinv _ _ Hinfo) as [Hpath Hex]. split; [assumption|].
  destruct (os_path_exists_true _ _ Hex) as [content Hfile].
  split; [rewrite <- Hpath; eauto|].
  unfold download_plot. rewrite Hinfo, missing_guard, Hex, Hpath. reflexivity.
Qed.

(** Requests that generate other identifiers leave the file of a plot
    alone. *)
Lemma serve_disk_other reqs st p :
  (forall g, g ∈ generated_ids (serve reqs st).1 -> png_path g <> p) ->
  disk (serve reqs st).2 !! p = disk st !! p.
Proof.
  revert st. induction reqs as [|r rest IH]; intros st; [reflexivity|].
  rewrite generated_ids_cons, serve_cons_state.
  pose proof (handle_effect r st) as Heff.
  destruct (generated_id (r, (handle r st).1)) as [g|].
  - destruct Heff as (content & created & Heff). intros Hother.
    rewrite IH by (intros g' Hg'; apply Hother; right; assumption).
    rewrite Heff. cbn [disk]. apply lookup_insert_ne. apply Hother. left.
  - intros Hother. rewrite IH by assumption. rewrite Heff. reflexivity.
Qed.

(** A plot stays downloadable: after any requests that generate only
    other identifiers (none starting with a slash), its download answers
    exactly as before. *)
Theorem plot_stays_downloadable reqs st plot_id info :
  PLOTS st !! plot_id = Some info ->
  path info = png_path plot_id ->
  starts_with_slash plot_id = false ->
  (forall g, g ∈ generated_ids (serve reqs st).1 ->
             g <> plot_id /\ starts_with_slash g = false) ->
  (download_plot plot_id (serve reqs st).2).1 = (download_plot plot_id st).1.
Proof.
  intros Hinfo Hpath Hslash Hother.
  assert (Hindex : PLOTS (serve reqs st).2 !! plot_id = Some info).
  { rewrite index_lookup_other; [assumption|].
    intros Hin. destruct (Hother _ Hin) as [Hne _]. congruence. }
  assert (Hdisk : disk (serve reqs st).2 !! path info = disk st !! path info).
  { apply serve_disk_other. intros g Hg Heq. destruct (Hother _ Hg) as [Hne Hg'].
    rewrite Hpath in Heq. apply Hne. exact (png_paths_apart _ _ Hg' Hslash Heq). }
  unfold download_plot, send_file, flask_open, os_path_exists.
  rewrite Hindex, Hinfo, Hdisk.
  destruct (String.eqb (path info) "" ||
            negb (if String.eqb (path info) "" then false
                  else bool_decide (is_Some (disk st !! path info))));
    reflexivity.
Qed.


(** ** The answers of [download_plot] *)

(** [download_plot] answers with its own 404 exactly when the identifier is
    not in the index, with its own 500 exactly when it is and
    [os.path.exists] does not find the recorded path, both with the error
    envelope; in every other case the answer is that of [send_file] on the
    recorded path, which is the file or an exception, never a JSON body. *)
Theorem download_view_cases plot_id st :
  let resp := (download_plot plot_id st).1 in
  (PLOTS st !! plot_id = None <->
   resp = Json (error_body ("plot '" ++ plot_id ++ "' not found")) 404) /\
  ((exists info, PLOTS st !! plot_id = Some info /\
                 os_path_exists st (path info) = false) <->
   resp = Json (error_body "plot file is missing or unavailable") 500) /\
  (forall info, PLOTS st !! plot_id = Some info ->
                os_path_exists st (path info) = true ->
                resp = send_file (path info) "image/png"
                         ("plot-" ++ plot_id ++ ".png") st) /\
  (forall body status, resp = Json body status ->
                       (status = 404 \/ status = 500) /\
                       exists message, body = error_body message) /\
  (status_code resp = 404 <-> PLOTS st !! plot_id = None).
Proof.
  cbv zeta.
  assert (Hsend : forall p m n body status, send_file p m n st <> Json body status).
  { intros p m n body status. unfold send_file.
    destruct (flask_open st p); discriminate. }
  assert (Hsend404 : forall p m n, status_code (send_file p m n st) <> 404).
  { intros p m n. unfold send_file. destruct (flask_open st p); discriminate. }
  destruct (download_plot_cases plot_id st)
    as [[Hnone ->]|[(info & Hsome & Hex & ->)|(info & Hsome & Hex & ->)]].
  - rewrite Hnone. split; [|split; [|split; [|split]]].
    + split; reflexivity.
    + split; [intros (info & Hinfo & _)|]; discriminate.
    + discriminate.
    + intros body status [= <- <-]. split; [left; reflexivity|eauto].
    + split; reflexivity.
  - rewrite Hsome. split; [|split; [|split; [|split]]].
    + split; discriminate.
    + split; [reflexivity|]. intros _. eauto.
    + intros info' [= <-] Hex'. congruence.
    + intros body status [= <- <-]. split; [right; reflexivity|eauto].
    + split; discriminate.
  - rewrite Hsome. split; [|split; [|split; [|split]]].
    + split; [discriminate|]. intros Heq. destruct (Hsend _ _ _ _ _ Heq).
    + split; [|intros Heq; destruct (Hsend _ _ _ _ _ Heq)].
      intros (info' & [= <-] & Hex'). congruence.
    + intros info' [= <-] _. reflexivity.
    + intros body status Heq. destruct (Hsend _ _ _ _ _ Heq).
    + split; [|discriminate]. intros Heq. destruct (Hsend404 _ _ _ Heq).
Qed.

End ServiceEdges.

(** * The further properties on concrete requests *)

Lemma rules_in_order_witness :
  @no_overflow bare_runtime mismatched_payload = true /\
  @_validate_plot_request bare_runtime mismatched_payload =
  Return (Rejected "x and y must have the same length").
Proof.
  split; [reflexivity|].
  exact (@rules_in_order bare_runtime mismatched_payload eq_refl).
Defined.

Lemma shape_rules_first_witness :
  @_validate_plot_request bare_runtime (PDict [("data", PList [PInt (10 ^ 400)])]) =
  Return (Rejected "at least two data points are required").
Proof.
  apply (@shape_rules_first bare_runtime).
  - vm_compute. reflexivity.
  - cbn. auto.
Defined.

Lemma too_many_points_first_witness :
  @_validate_plot_request bare_runtime
    (PDict [("data", PList (repeat (PStr "a") (Z.to_nat 5001)))]) =
  Return (Rejected "data contains too many points (max 5000)").
Proof.
  apply (@too_many_points_first bare_runtime _ (repeat (PStr "a") (Z.to_nat 5001))).
  - reflexivity.
  - apply Nat.ltb_lt. vm_compute. reflexivity.
Defined.

Lemma y_error_iff_caught_witness :
  @_validate_plot_request bare_runtime (PDict [("data", PList [PNone; PInt 1])]) =
  Return (Rejected "all y values must be numeric").
Proof.
  apply (@y_error_iff_caught bare_runtime _ [PNone; PInt 1]).
  - reflexivity.
  - cbn. lia.
  - exists TypeError. split; reflexivity.
Defined.

Lemma x_error_iff_caught_witness :
  @_validate_plot_request bare_runtime
    (PDict [("data", PDict [("x", PList [PStr "a"; PInt 1]);
                            ("y", PList [PInt 1; PInt 2])])]) =
  Return (Rejected "all x values must be numeric").
Proof.
  eapply (@x_error_iff_caught bare_runtime _ [PInt 1; PInt 2] _ [PStr "a"; PInt 1]).
  - reflexivity.
  - cbn. lia.
  - vm_compute. reflexivity.
  - reflexivity.
  - reflexivity.
  - exists ValueError. split; reflexivity.
Defined.

Lemma validator_raises_only_overflow_witness :
  exists n,
    PInt n ∈ [PInt (10 ^ 400); PInt 1] /\
    @py_float bare_runtime (PInt n) = Raise OverflowError.
Proof.
  assert (Hv : @_validate_plot_request bare_runtime
                 (PDict [("data", PList [PInt (10 ^ 400); PInt 1])]) =
               Raise OverflowError) by (vm_compute; reflexivity).
  destruct (@validator_raises_only_overflow bare_runtime _ _ Hv) as (_ & n & Hin & Hn).
  exists n. split; [|exact Hn].
  cbn in Hin. exact Hin.
Defined.

Lemma x_values_kind_witness :
  exists xs ys meta fx,
    @_validate_plot_request bare_runtime xy_payload = Return (Accepted xs ys meta) /\
    xs = map NFloat fx.
Proof.
  eassert (Hv : @_validate_plot_request bare_runtime xy_payload =
                Return (Accepted _ _ _)) by (vm_compute; reflexivity).
  destruct (@x_values_kind bare_runtime _ _ _ _ Hv) as [_ [Hfloats _]].
  destruct (Hfloats eq_refl) as (fx & Hxs & _).
  eexists _, _, _, fx. split; [exact Hv|exact Hxs].
Defined.

Lemma accepted_values_are_conversions_witness :
  exists xs ys meta f,
    @_validate_plot_request bare_runtime xy_payload = Return (Accepted xs ys meta) /\
    ys !! 3%nat = Some f /\ @py_float bare_runtime (PBool true) = Return f.
Proof.
  eassert (Hv : @_validate_plot_request bare_runtime xy_payload =
                Return (Accepted _ _ _)) by (vm_compute; reflexivity).
  destruct (@accepted_values_are_conversions bare_runtime _ _ _ _ 3%nat Hv) as [Hy _].
  destruct (Hy (PBool true) eq_refl) as (f & Hf & Hconv).
  eexists _, _, _, f. split; [exact Hv|]. split; [exact Hf|exact Hconv].
Defined.

Lemma floats_accepted_unchanged_witness :
  exists xs meta,
    @_validate_plot_request bare_runtime
      (PDict [("data", PList [PFloat S754_nan; PFloat (S754_infinity false);
                              PFloat (S754_zero true)])]) =
    Return (Accepted xs [S754_nan; S754_infinity false; S754_zero true] meta).
Proof.
  eexists _, _.
  apply (@floats_accepted_unchanged bare_runtime
           [("data", PList [PFloat S754_nan; PFloat (S754_infinity false);
                            PFloat (S754_zero true)])]
           [S754_nan; S754_infinity false; S754_zero true]).
  - reflexivity.
  - cbn. lia.
Defined.

Lemma length_mismatch_rejected_witness :
  @_validate_plot_request bare_runtime
    (PDict [("data", PDict [("x", PList [PStr "a"; PStr "b"; PStr "c"]);
                            ("y", PList [PInt 0; PInt 1])])]) =
  Return (Rejected "x and y must have the same length").
Proof.
  eapply (@length_mismatch_rejected bare_runtime _ [PInt 0; PInt 1] _
            [PStr "a"; PStr "b"; PStr "c"]).
  - reflexivity.
  - cbn. lia.
  - vm_compute. reflexivity.
  - reflexivity.
  - cbn. lia.
Defined.

Lemma accepted_meta_witness :
  exists xs ys meta,
    @_validate_plot_request bare_runtime
      (PDict [("data", PList [PInt 1; PInt 2]); ("title", PNone)]) =
    Return (Accepted xs ys meta) /\
    title meta = "None" /\ x_label meta = "Index" /\ y_label meta = "Value".
Proof.
  eassert (Hv : @_validate_plot_request bare_runtime
                  (PDict [("data", PList [PInt 1; PInt 2]); ("title", PNone)]) =
                Return (Accepted _ _ _)) by (vm_compute; reflexivity).
  eexists _, _, _. split; [exact Hv|].
  exact (@accepted_meta bare_runtime _ _ _ _ Hv).
Defined.

Lemma only_successful_post_changes_state_witness :
  (@handle bare_runtime (POST_plots malformed_body first_draw) (start ∅)).2 = start ∅.
Proof.
  apply (@only_successful_post_changes_state bare_runtime). vm_compute. reflexivity.
Defined.

Lemma post_writes_one_file_witness :
  exists body st',
    @create_plot bare_runtime (json_body flat_payload) first_draw (start ∅) =
    (Json body 200, st') /\
    disk st' !! "plots/6f1c2a9e-0b7d-4c55-9a3e-2d1f0e8b7c41.png" = Some "PNG" /\
    disk st' !! "plots/other.png" = None.
Proof.
  eassert (Hpost : @create_plot bare_runtime (json_body flat_payload) first_draw
                     (start ∅) = (Json _ 200, _)) by (vm_compute; reflexivity).
  destruct (@post_writes_one_file bare_runtime _ _ _ _ _ Hpost)
    as ((xs & ys & meta & content & _ & Hrender & Hfile) & Hother & _).
  eexists _, _. split; [exact Hpost|]. split.
  - injection Hrender as <-. exact Hfile.
  - rewrite (Hother "plots/other.png") by discriminate. reflexivity.
Defined.

Lemma created_plot_downloads_witness :
  exists body st',
    @create_plot bare_runtime (json_body flat_payload) first_draw (start ∅) =
    (Json body 200, st') /\
    @download_plot bare_runtime (uuid4 first_draw) st' =
    (SendFile "plots/6f1c2a9e-0b7d-4c55-9a3e-2d1f0e8b7c41.png" "PNG" "image/png"
       "plot-6f1c2a9e-0b7d-4c55-9a3e-2d1f0e8b7c41.png",
     st').
Proof.
  eassert (Hpost : @create_plot bare_runtime (json_body flat_payload) first_draw
                     (start ∅) = (Json _ 200, _)) by (vm_compute; reflexivity).
  destruct (@created_plot_downloads bare_runtime _ _ _ _ _ Hpost)
    as (xs & ys & meta & content & _ & Hrender & _ & Hsent).
  eexists _, _. split; [exact Hpost|].
  injection Hrender as <-. exact (Hsent eq_refl).
Defined.

Lemma id_collision_overwrites_witness :
  let st := (@create_plot bare_runtime (json_body flat_payload) first_draw (start ∅)).2 in
  let st' := (@create_plot bare_runtime (json_body xy_payload) first_draw st).2 in
  size (PLOTS st') = size (PLOTS st).
Proof.
  cbv zeta.
  eassert (Hpost : @create_plot bare_runtime (json_body xy_payload) first_draw
                     (@create_plot bare_runtime (json_body flat_payload) first_draw
                        (start ∅)).2 = (Json _ 200, _)) by (vm_compute; reflexivity).
  eassert (Hold : PLOTS (@create_plot bare_runtime (json_body flat_payload) first_draw
                           (start ∅)).2 !! uuid4 first_draw = Some _)
    by (vm_compute; reflexivity).
  destruct (@id_collision_overwrites bare_runtime _ _ _ _ _ _ Hpost Hold) as [Hsize _].
  rewrite Hpost. exact Hsize.
Defined.

Lemma png_paths_injective_witness :
  @png_path bare_runtime (uuid4 first_draw) <> @png_path bare_runtime (uuid4 second_draw).
Proof.
  apply (@png_paths_injective bare_runtime (uuid4 first_draw) (uuid4 second_draw)).
  - reflexivity.
  - reflexivity.
  - discriminate.
Defined.

Lemma index_entries_persist_witness :
  let st := (@create_plot bare_runtime (json_body flat_payload) first_draw (start ∅)).2 in
  PLOTS (@serve bare_runtime [GET_health; POST_plots (json_body xy_payload) second_draw]
           st).2 !! uuid4 first_draw =
  Some {| path := "plots/6f1c2a9e-0b7d-4c55-9a3e-2d1f0e8b7c41.png";
          created_at := "2024-05-01T10:00:00.000001Z" |}.
Proof.
  cbv zeta. apply (@index_entries_persist bare_runtime).
  - vm_compute. reflexivity.
  - apply (bool_decide_unpack _). vm_compute. exact I.
Defined.

Lemma served_index_has_files_witness :
  (@download_plot bare_runtime (uuid4 second_draw)
     (@serve bare_runtime sample_requests (start ∅)).2).1 =
  SendFile "plots/b2d4e6f8-1a3c-4e5f-8b7d-9c0a1e2f3b4d.png" "PNG" "image/png"
    "plot-b2d4e6f8-1a3c-4e5f-8b7d-9c0a1e2f3b4d.png".
Proof.
  eassert (Hinfo : PLOTS (@serve bare_runtime sample_requests (start ∅)).2
                     !! uuid4 second_draw = Some _) by (vm_compute; reflexivity).
  destruct (@served_index_has_files bare_runtime ∅ sample_requests _ _ Hinfo)
    as (_ & _ & Hsend).
  rewrite Hsend. vm_compute. reflexivity.
Defined.

Lemma plot_stays_downloadable_witness :
  let st := (@create_plot bare_runtime (json_body flat_payload) first_draw (start ∅)).2 in
  let later := [POST_plots (json_body xy_payload) second_draw; GET_health] in
  (@download_plot bare_runtime (uuid4 first_draw) (@serve bare_runtime later st).2).1 =
  (@download_plot bare_runtime (uuid4 first_draw) st).1.
Proof.
  cbv zeta.
  eapply (@plot_stays_downloadable bare_runtime).
  - vm_compute. reflexivity.
  - reflexivity.
  - reflexivity.
  - assert (Hids : generated_ids
                     (@serve bare_runtime
                        [POST_plots (json_body xy_payload) second_draw; GET_health]
                        (@create_plot bare_runtime (json_body flat_payload) first_draw
                           (start ∅)).2).1 = [uuid4 second_draw])
      by (vm_compute; reflexivity).
    rewrite Hids. intros g Hg. apply list_elem_of_singleton in Hg. subst g.
    split; [discriminate|reflexivity].
Defined.
